(** * fr_2ddoc_parser: decode orchestrator, type registry and typed views

    A shallow embedding of the Python package [fr_2ddoc_parser]
    ([model/models.py], [registry/registry.py], [type/doc07_carte_identite.py],
    [type/doc28_avis_impots.py] and [api.py]) together with the properties
    of the decode pipeline.

    Python values are modelled as follows: a [str] is the list of its
    Unicode code points, [bytes] a list of bytes, a [dict] a finite map,
    [None]-able values are options.  A Python call that may raise returns
    a [res]; code that mutates module globals or prints runs in the state
    monad [St world]. *)

From Stdlib Require Import ZArith NArith List String Ascii Bool Lia.
From Stdlib Require Import Strings.Byte DecimalString.
From stdpp Require Import base option list strings gmap.
Import ListNotations.

Open Scope N_scope.

(** ** Python strings *)

Module Py.

Abbreviation str := (list N).
Abbreviation bytes := (list byte).

(** String literals of the sources are written as Rocq strings, which hold
    the UTF-8 bytes of the literal; [py] decodes them to code points. *)
Fixpoint utf8_decode (bs : list N) : str :=
  match bs with
  | [] => []
  | b0 :: r0 =>
    if b0 <? 0x80 then b0 :: utf8_decode r0
    else if b0 <? 0xE0 then
      match r0 with
      | b1 :: r1 =>
        (N.shiftl (N.land b0 0x1F) 6 + N.land b1 0x3F) :: utf8_decode r1
      | _ => []
      end
    else if b0 <? 0xF0 then
      match r0 with
      | b1 :: b2 :: r2 =>
        (N.shiftl (N.land b0 0x0F) 12 + N.shiftl (N.land b1 0x3F) 6
         + N.land b2 0x3F) :: utf8_decode r2
      | _ => []
      end
    else
      match r0 with
      | b1 :: b2 :: b3 :: r3 =>
        (N.shiftl (N.land b0 0x07) 18 + N.shiftl (N.land b1 0x3F) 12
         + N.shiftl (N.land b2 0x3F) 6 + N.land b3 0x3F) :: utf8_decode r3
      | _ => []
      end
  end.

Definition py (s : string) : str :=
  utf8_decode (map N_of_ascii (list_ascii_of_string s)).


(** [str.upper()] maps every code point through the upper-case mapping of
    the Unicode Character Database (UnicodeData.txt and the unconditional
    rows of SpecialCasing.txt), here of Unicode 14.0, the tables of
    CPython 3.11.  Basic Latin is handled apart; the rows beyond it follow.

    A run [(lo, hi, step, to)] says that the code points [lo], [lo + step],
    ... up to [hi] have the upper case [to], [to + step], ... *)
Definition upper_runs : list (N * N * N * N) :=
  [
   (0xB5, 0xB5, 1, 0x39C); (0xE0, 0xF6, 1, 0xC0); (0xF8, 0xFE, 1, 0xD8);
   (0xFF, 0xFF, 1, 0x178); (0x101, 0x12F, 2, 0x100); (0x131, 0x131, 1, 0x49);
   (0x133, 0x137, 2, 0x132); (0x13A, 0x148, 2, 0x139);
   (0x14B, 0x177, 2, 0x14A); (0x17A, 0x17E, 2, 0x179);
   (0x17F, 0x17F, 1, 0x53); (0x180, 0x180, 1, 0x243);
   (0x183, 0x185, 2, 0x182); (0x188, 0x188, 1, 0x187);
   (0x18C, 0x18C, 1, 0x18B); (0x192, 0x192, 1, 0x191);
   (0x195, 0x195, 1, 0x1F6); (0x199, 0x199, 1, 0x198);
   (0x19A, 0x19A, 1, 0x23D); (0x19E, 0x19E, 1, 0x220);
   (0x1A1, 0x1A5, 2, 0x1A0); (0x1A8, 0x1A8, 1, 0x1A7);
   (0x1AD, 0x1AD, 1, 0x1AC); (0x1B0, 0x1B0, 1, 0x1AF);
   (0x1B4, 0x1B6, 2, 0x1B3); (0x1B9, 0x1B9, 1, 0x1B8);
   (0x1BD, 0x1BD, 1, 0x1BC); (0x1BF, 0x1BF, 1, 0x1F7);
   (0x1C5, 0x1C5, 1, 0x1C4); (0x1C6, 0x1C6, 1, 0x1C4);
   (0x1C8, 0x1C8, 1, 0x1C7); (0x1C9, 0x1C9, 1, 0x1C7);
   (0x1CB, 0x1CB, 1, 0x1CA); (0x1CC, 0x1CC, 1, 0x1CA);
   (0x1CE, 0x1DC, 2, 0x1CD); (0x1DD, 0x1DD, 1, 0x18E);
   (0x1DF, 0x1EF, 2, 0x1DE); (0x1F2, 0x1F2, 1, 0x1F1);
   (0x1F3, 0x1F3, 1, 0x1F1); (0x1F5, 0x1F5, 1, 0x1F4);
   (0x1F9, 0x21F, 2, 0x1F8); (0x223, 0x233, 2, 0x222);
   (0x23C, 0x23C, 1, 0x23B); (0x23F, 0x240, 1, 0x2C7E);
   (0x242, 0x242, 1, 0x241); (0x247, 0x24F, 2, 0x246);
   (0x250, 0x250, 1, 0x2C6F); (0x251, 0x251, 1, 0x2C6D);
   (0x252, 0x252, 1, 0x2C70); (0x253, 0x253, 1, 0x181);
   (0x254, 0x254, 1, 0x186); (0x256, 0x257, 1, 0x189);
   (0x259, 0x259, 1, 0x18F); (0x25B, 0x25B, 1, 0x190);
   (0x25C, 0x25C, 1, 0xA7AB); (0x260, 0x260, 1, 0x193);
   (0x261, 0x261, 1, 0xA7AC); (0x263, 0x263, 1, 0x194);
   (0x265, 0x265, 1, 0xA78D); (0x266, 0x266, 1, 0xA7AA);
   (0x268, 0x268, 1, 0x197); (0x269, 0x269, 1, 0x196);
   (0x26A, 0x26A, 1, 0xA7AE); (0x26B, 0x26B, 1, 0x2C62);
   (0x26C, 0x26C, 1, 0xA7AD); (0x26F, 0x26F, 1, 0x19C);
   (0x271, 0x271, 1, 0x2C6E); (0x272, 0x272, 1, 0x19D);
   (0x275, 0x275, 1, 0x19F); (0x27D, 0x27D, 1, 0x2C64);
   (0x280, 0x280, 1, 0x1A6); (0x282, 0x282, 1, 0xA7C5);
   (0x283, 0x283, 1, 0x1A9); (0x287, 0x287, 1, 0xA7B1);
   (0x288, 0x288, 1, 0x1AE); (0x289, 0x289, 1, 0x244);
   (0x28A, 0x28B, 1, 0x1B1); (0x28C, 0x28C, 1, 0x245);
   (0x292, 0x292, 1, 0x1B7); (0x29D, 0x29D, 1, 0xA7B2);
   (0x29E, 0x29E, 1, 0xA7B0); (0x345, 0x345, 1, 0x399);
   (0x371, 0x373, 2, 0x370); (0x377, 0x377, 1, 0x376);
   (0x37B, 0x37D, 1, 0x3FD); (0x3AC, 0x3AC, 1, 0x386);
   (0x3AD, 0x3AF, 1, 0x388); (0x3B1, 0x3C1, 1, 0x391);
   (0x3C2, 0x3C2, 1, 0x3A3); (0x3C3, 0x3CB, 1, 0x3A3);
   (0x3CC, 0x3CC, 1, 0x38C); (0x3CD, 0x3CE, 1, 0x38E);
   (0x3D0, 0x3D0, 1, 0x392); (0x3D1, 0x3D1, 1, 0x398);
   (0x3D5, 0x3D5, 1, 0x3A6); (0x3D6, 0x3D6, 1, 0x3A0);
   (0x3D7, 0x3D7, 1, 0x3CF); (0x3D9, 0x3EF, 2, 0x3D8);
   (0x3F0, 0x3F0, 1, 0x39A); (0x3F1, 0x3F1, 1, 0x3A1);
   (0x3F2, 0x3F2, 1, 0x3F9); (0x3F3, 0x3F3, 1, 0x37F);
   (0x3F5, 0x3F5, 1, 0x395); (0x3F8, 0x3F8, 1, 0x3F7);
   (0x3FB, 0x3FB, 1, 0x3FA); (0x430, 0x44F, 1, 0x410);
   (0x450, 0x45F, 1, 0x400); (0x461, 0x481, 2, 0x460);
   (0x48B, 0x4BF, 2, 0x48A); (0x4C2, 0x4CE, 2, 0x4C1);
   (0x4CF, 0x4CF, 1, 0x4C0); (0x4D1, 0x52F, 2, 0x4D0);
   (0x561, 0x586, 1, 0x531); (0x10D0, 0x10FA, 1, 0x1C90);
   (0x10FD, 0x10FF, 1, 0x1CBD); (0x13F8, 0x13FD, 1, 0x13F0);
   (0x1C80, 0x1C80, 1, 0x412); (0x1C81, 0x1C81, 1, 0x414);
   (0x1C82, 0x1C82, 1, 0x41E); (0x1C83, 0x1C84, 1, 0x421);
   (0x1C85, 0x1C85, 1, 0x422); (0x1C86, 0x1C86, 1, 0x42A);
   (0x1C87, 0x1C87, 1, 0x462); (0x1C88, 0x1C88, 1, 0xA64A);
   (0x1D79, 0x1D79, 1, 0xA77D); (0x1D7D, 0x1D7D, 1, 0x2C63);
   (0x1D8E, 0x1D8E, 1, 0xA7C6); (0x1E01, 0x1E95, 2, 0x1E00);
   (0x1E9B, 0x1E9B, 1, 0x1E60); (0x1EA1, 0x1EFF, 2, 0x1EA0);
   (0x1F00, 0x1F07, 1, 0x1F08); (0x1F10, 0x1F15, 1, 0x1F18);
   (0x1F20, 0x1F27, 1, 0x1F28); (0x1F30, 0x1F37, 1, 0x1F38);
   (0x1F40, 0x1F45, 1, 0x1F48); (0x1F51, 0x1F57, 2, 0x1F59);
   (0x1F60, 0x1F67, 1, 0x1F68); (0x1F70, 0x1F71, 1, 0x1FBA);
   (0x1F72, 0x1F75, 1, 0x1FC8); (0x1F76, 0x1F77, 1, 0x1FDA);
   (0x1F78, 0x1F79, 1, 0x1FF8); (0x1F7A, 0x1F7B, 1, 0x1FEA);
   (0x1F7C, 0x1F7D, 1, 0x1FFA); (0x1FB0, 0x1FB1, 1, 0x1FB8);
   (0x1FBE, 0x1FBE, 1, 0x399); (0x1FD0, 0x1FD1, 1, 0x1FD8);
   (0x1FE0, 0x1FE1, 1, 0x1FE8); (0x1FE5, 0x1FE5, 1, 0x1FEC);
   (0x214E, 0x214E, 1, 0x2132); (0x2170, 0x217F, 1, 0x2160);
   (0x2184, 0x2184, 1, 0x2183); (0x24D0, 0x24E9, 1, 0x24B6);
   (0x2C30, 0x2C5F, 1, 0x2C00); (0x2C61, 0x2C61, 1, 0x2C60);
   (0x2C65, 0x2C65, 1, 0x23A); (0x2C66, 0x2C66, 1, 0x23E);
   (0x2C68, 0x2C6C, 2, 0x2C67); (0x2C73, 0x2C73, 1, 0x2C72);
   (0x2C76, 0x2C76, 1, 0x2C75); (0x2C81, 0x2CE3, 2, 0x2C80);
   (0x2CEC, 0x2CEE, 2, 0x2CEB); (0x2CF3, 0x2CF3, 1, 0x2CF2);
   (0x2D00, 0x2D25, 1, 0x10A0); (0x2D27, 0x2D27, 1, 0x10C7);
   (0x2D2D, 0x2D2D, 1, 0x10CD); (0xA641, 0xA66D, 2, 0xA640);
   (0xA681, 0xA69B, 2, 0xA680); (0xA723, 0xA72F, 2, 0xA722);
   (0xA733, 0xA76F, 2, 0xA732); (0xA77A, 0xA77C, 2, 0xA779);
   (0xA77F, 0xA787, 2, 0xA77E); (0xA78C, 0xA78C, 1, 0xA78B);
   (0xA791, 0xA793, 2, 0xA790); (0xA794, 0xA794, 1, 0xA7C4);
   (0xA797, 0xA7A9, 2, 0xA796); (0xA7B5, 0xA7C3, 2, 0xA7B4);
   (0xA7C8, 0xA7CA, 2, 0xA7C7); (0xA7D1, 0xA7D1, 1, 0xA7D0);
   (0xA7D7, 0xA7D9, 2, 0xA7D6); (0xA7F6, 0xA7F6, 1, 0xA7F5);
   (0xAB53, 0xAB53, 1, 0xA7B3); (0xAB70, 0xABBF, 1, 0x13A0);
   (0xFF41, 0xFF5A, 1, 0xFF21); (0x10428, 0x1044F, 1, 0x10400);
   (0x104D8, 0x104FB, 1, 0x104B0); (0x10597, 0x105BB, 2, 0x10570);
   (0x10598, 0x105A0, 2, 0x10571); (0x105A4, 0x105B0, 2, 0x1057D);
   (0x105B4, 0x105B8, 2, 0x1058D); (0x105BC, 0x105BC, 1, 0x10595);
   (0x10CC0, 0x10CF2, 1, 0x10C80); (0x118C0, 0x118DF, 1, 0x118A0);
   (0x16E60, 0x16E7F, 1, 0x16E40); (0x1E922, 0x1E943, 1, 0x1E900)
  ].

(** The code points whose upper case is made of several code points. *)
Definition upper_special : list (N * list N) :=
  [
   (0xDF, [0x53; 0x53]); (0x149, [0x2BC; 0x4E]); (0x1F0, [0x4A; 0x30C]);
   (0x390, [0x399; 0x308; 0x301]); (0x3B0, [0x3A5; 0x308; 0x301]);
   (0x587, [0x535; 0x552]); (0x1E96, [0x48; 0x331]); (0x1E97, [0x54; 0x308]);
   (0x1E98, [0x57; 0x30A]); (0x1E99, [0x59; 0x30A]); (0x1E9A, [0x41; 0x2BE]);
   (0x1F50, [0x3A5; 0x313]); (0x1F52, [0x3A5; 0x313; 0x300]);
   (0x1F54, [0x3A5; 0x313; 0x301]); (0x1F56, [0x3A5; 0x313; 0x342]);
   (0x1F80, [0x1F08; 0x399]); (0x1F81, [0x1F09; 0x399]);
   (0x1F82, [0x1F0A; 0x399]); (0x1F83, [0x1F0B; 0x399]);
   (0x1F84, [0x1F0C; 0x399]); (0x1F85, [0x1F0D; 0x399]);
   (0x1F86, [0x1F0E; 0x399]); (0x1F87, [0x1F0F; 0x399]);
   (0x1F88, [0x1F08; 0x399]); (0x1F89, [0x1F09; 0x399]);
   (0x1F8A, [0x1F0A; 0x399]); (0x1F8B, [0x1F0B; 0x399]);
   (0x1F8C, [0x1F0C; 0x399]); (0x1F8D, [0x1F0D; 0x399]);
   (0x1F8E, [0x1F0E; 0x399]); (0x1F8F, [0x1F0F; 0x399]);
   (0x1F90, [0x1F28; 0x399]); (0x1F91, [0x1F29; 0x399]);
   (0x1F92, [0x1F2A; 0x399]); (0x1F93, [0x1F2B; 0x399]);
   (0x1F94, [0x1F2C; 0x399]); (0x1F95, [0x1F2D; 0x399]);
   (0x1F96, [0x1F2E; 0x399]); (0x1F97, [0x1F2F; 0x399]);
   (0x1F98, [0x1F28; 0x399]); (0x1F99, [0x1F29; 0x399]);
   (0x1F9A, [0x1F2A; 0x399]); (0x1F9B, [0x1F2B; 0x399]);
   (0x1F9C, [0x1F2C; 0x399]); (0x1F9D, [0x1F2D; 0x399]);
   (0x1F9E, [0x1F2E; 0x399]); (0x1F9F, [0x1F2F; 0x399]);
   (0x1FA0, [0x1F68; 0x399]); (0x1FA1, [0x1F69; 0x399]);
   (0x1FA2, [0x1F6A; 0x399]); (0x1FA3, [0x1F6B; 0x399]);
   (0x1FA4, [0x1F6C; 0x399]); (0x1FA5, [0x1F6D; 0x399]);
   (0x1FA6, [0x1F6E; 0x399]); (0x1FA7, [0x1F6F; 0x399]);
   (0x1FA8, [0x1F68; 0x399]); (0x1FA9, [0x1F69; 0x399]);
   (0x1FAA, [0x1F6A; 0x399]); (0x1FAB, [0x1F6B; 0x399]);
   (0x1FAC, [0x1F6C; 0x399]); (0x1FAD, [0x1F6D; 0x399]);
   (0x1FAE, [0x1F6E; 0x399]); (0x1FAF, [0x1F6F; 0x399]);
   (0x1FB2, [0x1FBA; 0x399]); (0x1FB3, [0x391; 0x399]);
   (0x1FB4, [0x386; 0x399]); (0x1FB6, [0x391; 0x342]);
   (0x1FB7, [0x391; 0x342; 0x399]); (0x1FBC, [0x391; 0x399]);
   (0x1FC2, [0x1FCA; 0x399]); (0x1FC3, [0x397; 0x399]);
   (0x1FC4, [0x389; 0x399]); (0x1FC6, [0x397; 0x342]);
   (0x1FC7, [0x397; 0x342; 0x399]); (0x1FCC, [0x397; 0x399]);
   (0x1FD2, [0x399; 0x308; 0x300]); (0x1FD3, [0x399; 0x308; 0x301]);
   (0x1FD6, [0x399; 0x342]); (0x1FD7, [0x399; 0x308; 0x342]);
   (0x1FE2, [0x3A5; 0x308; 0x300]); (0x1FE3, [0x3A5; 0x308; 0x301]);
   (0x1FE4, [0x3A1; 0x313]); (0x1FE6, [0x3A5; 0x342]);
   (0x1FE7, [0x3A5; 0x308; 0x342]); (0x1FF2, [0x1FFA; 0x399]);
   (0x1FF3, [0x3A9; 0x399]); (0x1FF4, [0x38F; 0x399]);
   (0x1FF6, [0x3A9; 0x342]); (0x1FF7, [0x3A9; 0x342; 0x399]);
   (0x1FFC, [0x3A9; 0x399]); (0xFB00, [0x46; 0x46]); (0xFB01, [0x46; 0x49]);
   (0xFB02, [0x46; 0x4C]); (0xFB03, [0x46; 0x46; 0x49]);
   (0xFB04, [0x46; 0x46; 0x4C]); (0xFB05, [0x53; 0x54]);
   (0xFB06, [0x53; 0x54]); (0xFB13, [0x544; 0x546]); (0xFB14, [0x544; 0x535]);
   (0xFB15, [0x544; 0x53B]); (0xFB16, [0x54E; 0x546]);
   (0xFB17, [0x544; 0x53D])
  ].

Definition expand_run (run : N * N * N * N) : list (N * list N) :=
  let '(lo, hi, step, to) := run in
  map (fun k => (lo + N.of_nat k * step, [to + N.of_nat k * step]))
      (seq 0%nat (S (N.to_nat ((hi - lo) / step)))).

(** The table, one row per code point with an upper case of its own. *)
Definition upper_table : list (N * list N) :=
  Eval vm_compute in flat_map expand_run upper_runs ++ upper_special.

Fixpoint table_find (c : N) (table : list (N * list N)) : option (list N) :=
  match table with
  | [] => None
  | (k, m) :: rest => if c =? k then Some m else table_find c rest
  end.

Definition upper_cp (c : N) : list N :=
  if (0x61 <=? c) && (c <=? 0x7A) then [c - 0x20]
  else if c <? 0x80 then [c]
  else match table_find c upper_table with
       | Some m => m
       | None => [c]
       end.

(** [str.lower()] maps every code point but the capital sigma through the
    lower-case mapping of the same tables; the rows beyond Basic Latin
    follow, as runs [(lo, hi, step, to)]. *)
Definition lower_runs : list (N * N * N * N) :=
  [
   (0xC0, 0xD6, 1, 0xE0); (0xD8, 0xDE, 1, 0xF8); (0x100, 0x12E, 2, 0x101);
   (0x132, 0x136, 2, 0x133); (0x139, 0x147, 2, 0x13A);
   (0x14A, 0x176, 2, 0x14B); (0x178, 0x178, 1, 0xFF);
   (0x179, 0x17D, 2, 0x17A); (0x181, 0x181, 1, 0x253);
   (0x182, 0x184, 2, 0x183); (0x186, 0x186, 1, 0x254);
   (0x187, 0x187, 1, 0x188); (0x189, 0x18A, 1, 0x256);
   (0x18B, 0x18B, 1, 0x18C); (0x18E, 0x18E, 1, 0x1DD);
   (0x18F, 0x18F, 1, 0x259); (0x190, 0x190, 1, 0x25B);
   (0x191, 0x191, 1, 0x192); (0x193, 0x193, 1, 0x260);
   (0x194, 0x194, 1, 0x263); (0x196, 0x196, 1, 0x269);
   (0x197, 0x197, 1, 0x268); (0x198, 0x198, 1, 0x199);
   (0x19C, 0x19C, 1, 0x26F); (0x19D, 0x19D, 1, 0x272);
   (0x19F, 0x19F, 1, 0x275); (0x1A0, 0x1A4, 2, 0x1A1);
   (0x1A6, 0x1A6, 1, 0x280); (0x1A7, 0x1A7, 1, 0x1A8);
   (0x1A9, 0x1A9, 1, 0x283); (0x1AC, 0x1AC, 1, 0x1AD);
   (0x1AE, 0x1AE, 1, 0x288); (0x1AF, 0x1AF, 1, 0x1B0);
   (0x1B1, 0x1B2, 1, 0x28A); (0x1B3, 0x1B5, 2, 0x1B4);
   (0x1B7, 0x1B7, 1, 0x292); (0x1B8, 0x1B8, 1, 0x1B9);
   (0x1BC, 0x1BC, 1, 0x1BD); (0x1C4, 0x1C4, 1, 0x1C6);
   (0x1C5, 0x1C5, 1, 0x1C6); (0x1C7, 0x1C7, 1, 0x1C9);
   (0x1C8, 0x1C8, 1, 0x1C9); (0x1CA, 0x1CA, 1, 0x1CC);
   (0x1CB, 0x1DB, 2, 0x1CC); (0x1DE, 0x1EE, 2, 0x1DF);
   (0x1F1, 0x1F1, 1, 0x1F3); (0x1F2, 0x1F4, 2, 0x1F3);
   (0x1F6, 0x1F6, 1, 0x195); (0x1F7, 0x1F7, 1, 0x1BF);
   (0x1F8, 0x21E, 2, 0x1F9); (0x220, 0x220, 1, 0x19E);
   (0x222, 0x232, 2, 0x223); (0x23A, 0x23A, 1, 0x2C65);
   (0x23B, 0x23B, 1, 0x23C); (0x23D, 0x23D, 1, 0x19A);
   (0x23E, 0x23E, 1, 0x2C66); (0x241, 0x241, 1, 0x242);
   (0x243, 0x243, 1, 0x180); (0x244, 0x244, 1, 0x289);
   (0x245, 0x245, 1, 0x28C); (0x246, 0x24E, 2, 0x247);
   (0x370, 0x372, 2, 0x371); (0x376, 0x376, 1, 0x377);
   (0x37F, 0x37F, 1, 0x3F3); (0x386, 0x386, 1, 0x3AC);
   (0x388, 0x38A, 1, 0x3AD); (0x38C, 0x38C, 1, 0x3CC);
   (0x38E, 0x38F, 1, 0x3CD); (0x391, 0x3A1, 1, 0x3B1);
   (0x3A3, 0x3AB, 1, 0x3C3); (0x3CF, 0x3CF, 1, 0x3D7);
   (0x3D8, 0x3EE, 2, 0x3D9); (0x3F4, 0x3F4, 1, 0x3B8);
   (0x3F7, 0x3F7, 1, 0x3F8); (0x3F9, 0x3F9, 1, 0x3F2);
   (0x3FA, 0x3FA, 1, 0x3FB); (0x3FD, 0x3FF, 1, 0x37B);
   (0x400, 0x40F, 1, 0x450); (0x410, 0x42F, 1, 0x430);
   (0x460, 0x480, 2, 0x461); (0x48A, 0x4BE, 2, 0x48B);
   (0x4C0, 0x4C0, 1, 0x4CF); (0x4C1, 0x4CD, 2, 0x4C2);
   (0x4D0, 0x52E, 2, 0x4D1); (0x531, 0x556, 1, 0x561);
   (0x10A0, 0x10C5, 1, 0x2D00); (0x10C7, 0x10C7, 1, 0x2D27);
   (0x10CD, 0x10CD, 1, 0x2D2D); (0x13A0, 0x13EF, 1, 0xAB70);
   (0x13F0, 0x13F5, 1, 0x13F8); (0x1C90, 0x1CBA, 1, 0x10D0);
   (0x1CBD, 0x1CBF, 1, 0x10FD); (0x1E00, 0x1E94, 2, 0x1E01);
   (0x1E9E, 0x1E9E, 1, 0xDF); (0x1EA0, 0x1EFE, 2, 0x1EA1);
   (0x1F08, 0x1F0F, 1, 0x1F00); (0x1F18, 0x1F1D, 1, 0x1F10);
   (0x1F28, 0x1F2F, 1, 0x1F20); (0x1F38, 0x1F3F, 1, 0x1F30);
   (0x1F48, 0x1F4D, 1, 0x1F40); (0x1F59, 0x1F5F, 2, 0x1F51);
   (0x1F68, 0x1F6F, 1, 0x1F60); (0x1F88, 0x1F8F, 1, 0x1F80);
   (0x1F98, 0x1F9F, 1, 0x1F90); (0x1FA8, 0x1FAF, 1, 0x1FA0);
   (0x1FB8, 0x1FB9, 1, 0x1FB0); (0x1FBA, 0x1FBB, 1, 0x1F70);
   (0x1FBC, 0x1FBC, 1, 0x1FB3); (0x1FC8, 0x1FCB, 1, 0x1F72);
   (0x1FCC, 0x1FCC, 1, 0x1FC3); (0x1FD8, 0x1FD9, 1, 0x1FD0);
   (0x1FDA, 0x1FDB, 1, 0x1F76); (0x1FE8, 0x1FE9, 1, 0x1FE0);
   (0x1FEA, 0x1FEB, 1, 0x1F7A); (0x1FEC, 0x1FEC, 1, 0x1FE5);
   (0x1FF8, 0x1FF9, 1, 0x1F78); (0x1FFA, 0x1FFB, 1, 0x1F7C);
   (0x1FFC, 0x1FFC, 1, 0x1FF3); (0x2126, 0x2126, 1, 0x3C9);
   (0x212A, 0x212A, 1, 0x6B); (0x212B, 0x212B, 1, 0xE5);
   (0x2132, 0x2132, 1, 0x214E); (0x2160, 0x216F, 1, 0x2170);
   (0x2183, 0x2183, 1, 0x2184); (0x24B6, 0x24CF, 1, 0x24D0);
   (0x2C00, 0x2C2F, 1, 0x2C30); (0x2C60, 0x2C60, 1, 0x2C61);
   (0x2C62, 0x2C62, 1, 0x26B); (0x2C63, 0x2C63, 1, 0x1D7D);
   (0x2C64, 0x2C64, 1, 0x27D); (0x2C67, 0x2C6B, 2, 0x2C68);
   (0x2C6D, 0x2C6D, 1, 0x251); (0x2C6E, 0x2C6E, 1, 0x271);
   (0x2C6F, 0x2C6F, 1, 0x250); (0x2C70, 0x2C70, 1, 0x252);
   (0x2C72, 0x2C72, 1, 0x2C73); (0x2C75, 0x2C75, 1, 0x2C76);
   (0x2C7E, 0x2C7F, 1, 0x23F); (0x2C80, 0x2CE2, 2, 0x2C81);
   (0x2CEB, 0x2CED, 2, 0x2CEC); (0x2CF2, 0x2CF2, 1, 0x2CF3);
   (0xA640, 0xA66C, 2, 0xA641); (0xA680, 0xA69A, 2, 0xA681);
   (0xA722, 0xA72E, 2, 0xA723); (0xA732, 0xA76E, 2, 0xA733);
   (0xA779, 0xA77B, 2, 0xA77A); (0xA77D, 0xA77D, 1, 0x1D79);
   (0xA77E, 0xA786, 2, 0xA77F); (0xA78B, 0xA78B, 1, 0xA78C);
   (0xA78D, 0xA78D, 1, 0x265); (0xA790, 0xA792, 2, 0xA791);
   (0xA796, 0xA7A8, 2, 0xA797); (0xA7AA, 0xA7AA, 1, 0x266);
   (0xA7AB, 0xA7AB, 1, 0x25C); (0xA7AC, 0xA7AC, 1, 0x261);
   (0xA7AD, 0xA7AD, 1, 0x26C); (0xA7AE, 0xA7AE, 1, 0x26A);
   (0xA7B0, 0xA7B0, 1, 0x29E); (0xA7B1, 0xA7B1, 1, 0x287);
   (0xA7B2, 0xA7B2, 1, 0x29D); (0xA7B3, 0xA7B3, 1, 0xAB53);
   (0xA7B4, 0xA7C2, 2, 0xA7B5); (0xA7C4, 0xA7C4, 1, 0xA794);
   (0xA7C5, 0xA7C5, 1, 0x282); (0xA7C6, 0xA7C6, 1, 0x1D8E);
   (0xA7C7, 0xA7C9, 2, 0xA7C8); (0xA7D0, 0xA7D0, 1, 0xA7D1);
   (0xA7D6, 0xA7D8, 2, 0xA7D7); (0xA7F5, 0xA7F5, 1, 0xA7F6);
   (0xFF21, 0xFF3A, 1, 0xFF41); (0x10400, 0x10427, 1, 0x10428);
   (0x104B0, 0x104D3, 1, 0x104D8); (0x10570, 0x1057A, 1, 0x10597);
   (0x1057C, 0x1058A, 1, 0x105A3); (0x1058C, 0x10592, 1, 0x105B3);
   (0x10594, 0x10595, 1, 0x105BB); (0x10C80, 0x10CB2, 1, 0x10CC0);
   (0x118A0, 0x118BF, 1, 0x118C0); (0x16E40, 0x16E5F, 1, 0x16E60);
   (0x1E900, 0x1E921, 1, 0x1E922)
  ].

(** The one code point whose lower case is made of several code points. *)
Definition lower_special : list (N * list N) :=
  [
   (0x130, [0x69; 0x307])
  ].

(** The table, one row per code point with a lower case of its own. *)
Definition lower_table : list (N * list N) :=
  Eval vm_compute in flat_map expand_run lower_runs ++ lower_special.

Definition lower_cp (c : N) : list N :=
  if (0x41 <=? c) && (c <=? 0x5A) then [c + 0x20]
  else if c <? 0x80 then [c]
  else match table_find c lower_table with
       | Some m => m
       | None => [c]
       end.

(** The code points with the property Case_Ignorable, as ranges
    [(first, last)]. *)
Definition case_ignorable_ranges : list (N * N) :=
  [
   (0x27, 0x27); (0x2E, 0x2E); (0x3A, 0x3A); (0x5E, 0x5E); (0x60, 0x60);
   (0xA8, 0xA8); (0xAD, 0xAD); (0xAF, 0xAF); (0xB4, 0xB4); (0xB7, 0xB8);
   (0x2B0, 0x36F); (0x374, 0x375); (0x37A, 0x37A); (0x384, 0x385);
   (0x387, 0x387); (0x483, 0x489); (0x559, 0x559); (0x55F, 0x55F);
   (0x591, 0x5BD); (0x5BF, 0x5BF); (0x5C1, 0x5C2); (0x5C4, 0x5C5);
   (0x5C7, 0x5C7); (0x5F4, 0x5F4); (0x600, 0x605); (0x610, 0x61A);
   (0x61C, 0x61C); (0x640, 0x640); (0x64B, 0x65F); (0x670, 0x670);
   (0x6D6, 0x6DD); (0x6DF, 0x6E8); (0x6EA, 0x6ED); (0x70F, 0x70F);
   (0x711, 0x711); (0x730, 0x74A); (0x7A6, 0x7B0); (0x7EB, 0x7F5);
   (0x7FA, 0x7FA); (0x7FD, 0x7FD); (0x816, 0x82D); (0x859, 0x85B);
   (0x888, 0x888); (0x890, 0x891); (0x898, 0x89F); (0x8C9, 0x902);
   (0x93A, 0x93A); (0x93C, 0x93C); (0x941, 0x948); (0x94D, 0x94D);
   (0x951, 0x957); (0x962, 0x963); (0x971, 0x971); (0x981, 0x981);
   (0x9BC, 0x9BC); (0x9C1, 0x9C4); (0x9CD, 0x9CD); (0x9E2, 0x9E3);
   (0x9FE, 0x9FE); (0xA01, 0xA02); (0xA3C, 0xA3C); (0xA41, 0xA42);
   (0xA47, 0xA48); (0xA4B, 0xA4D); (0xA51, 0xA51); (0xA70, 0xA71);
   (0xA75, 0xA75); (0xA81, 0xA82); (0xABC, 0xABC); (0xAC1, 0xAC5);
   (0xAC7, 0xAC8); (0xACD, 0xACD); (0xAE2, 0xAE3); (0xAFA, 0xAFF);
   (0xB01, 0xB01); (0xB3C, 0xB3C); (0xB3F, 0xB3F); (0xB41, 0xB44);
   (0xB4D, 0xB4D); (0xB55, 0xB56); (0xB62, 0xB63); (0xB82, 0xB82);
   (0xBC0, 0xBC0); (0xBCD, 0xBCD); (0xC00, 0xC00); (0xC04, 0xC04);
   (0xC3C, 0xC3C); (0xC3E, 0xC40); (0xC46, 0xC48); (0xC4A, 0xC4D);
   (0xC55, 0xC56); (0xC62, 0xC63); (0xC81, 0xC81); (0xCBC, 0xCBC);
   (0xCBF, 0xCBF); (0xCC6, 0xCC6); (0xCCC, 0xCCD); (0xCE2, 0xCE3);
   (0xD00, 0xD01); (0xD3B, 0xD3C); (0xD41, 0xD44); (0xD4D, 0xD4D);
   (0xD62, 0xD63); (0xD81, 0xD81); (0xDCA, 0xDCA); (0xDD2, 0xDD4);
   (0xDD6, 0xDD6); (0xE31, 0xE31); (0xE34, 0xE3A); (0xE46, 0xE4E);
   (0xEB1, 0xEB1); (0xEB4, 0xEBC); (0xEC6, 0xEC6); (0xEC8, 0xECD);
   (0xF18, 0xF19); (0xF35, 0xF35); (0xF37, 0xF37); (0xF39, 0xF39);
   (0xF71, 0xF7E); (0xF80, 0xF84); (0xF86, 0xF87); (0xF8D, 0xF97);
   (0xF99, 0xFBC); (0xFC6, 0xFC6); (0x102D, 0x1030); (0x1032, 0x1037);
   (0x1039, 0x103A); (0x103D, 0x103E); (0x1058, 0x1059); (0x105E, 0x1060);
   (0x1071, 0x1074); (0x1082, 0x1082); (0x1085, 0x1086); (0x108D, 0x108D);
   (0x109D, 0x109D); (0x10FC, 0x10FC); (0x135D, 0x135F); (0x1712, 0x1714);
   (0x1732, 0x1733); (0x1752, 0x1753); (0x1772, 0x1773); (0x17B4, 0x17B5);
   (0x17B7, 0x17BD); (0x17C6, 0x17C6); (0x17C9, 0x17D3); (0x17D7, 0x17D7);
   (0x17DD, 0x17DD); (0x180B, 0x180F); (0x1843, 0x1843); (0x1885, 0x1886);
   (0x18A9, 0x18A9); (0x1920, 0x1922); (0x1927, 0x1928); (0x1932, 0x1932);
   (0x1939, 0x193B); (0x1A17, 0x1A18); (0x1A1B, 0x1A1B); (0x1A56, 0x1A56);
   (0x1A58, 0x1A5E); (0x1A60, 0x1A60); (0x1A62, 0x1A62); (0x1A65, 0x1A6C);
   (0x1A73, 0x1A7C); (0x1A7F, 0x1A7F); (0x1AA7, 0x1AA7); (0x1AB0, 0x1ACE);
   (0x1B00, 0x1B03); (0x1B34, 0x1B34); (0x1B36, 0x1B3A); (0x1B3C, 0x1B3C);
   (0x1B42, 0x1B42); (0x1B6B, 0x1B73); (0x1B80, 0x1B81); (0x1BA2, 0x1BA5);
   (0x1BA8, 0x1BA9); (0x1BAB, 0x1BAD); (0x1BE6, 0x1BE6); (0x1BE8, 0x1BE9);
   (0x1BED, 0x1BED); (0x1BEF, 0x1BF1); (0x1C2C, 0x1C33); (0x1C36, 0x1C37);
   (0x1C78, 0x1C7D); (0x1CD0, 0x1CD2); (0x1CD4, 0x1CE0); (0x1CE2, 0x1CE8);
   (0x1CED, 0x1CED); (0x1CF4, 0x1CF4); (0x1CF8, 0x1CF9); (0x1D2C, 0x1D6A);
   (0x1D78, 0x1D78); (0x1D9B, 0x1DFF); (0x1FBD, 0x1FBD); (0x1FBF, 0x1FC1);
   (0x1FCD, 0x1FCF); (0x1FDD, 0x1FDF); (0x1FED, 0x1FEF); (0x1FFD, 0x1FFE);
   (0x200B, 0x200F); (0x2018, 0x2019); (0x2024, 0x2024); (0x2027, 0x2027);
   (0x202A, 0x202E); (0x2060, 0x2064); (0x2066, 0x206F); (0x2071, 0x2071);
   (0x207F, 0x207F); (0x2090, 0x209C); (0x20D0, 0x20F0); (0x2C7C, 0x2C7D);
   (0x2CEF, 0x2CF1); (0x2D6F, 0x2D6F); (0x2D7F, 0x2D7F); (0x2DE0, 0x2DFF);
   (0x2E2F, 0x2E2F); (0x3005, 0x3005); (0x302A, 0x302D); (0x3031, 0x3035);
   (0x303B, 0x303B); (0x3099, 0x309E); (0x30FC, 0x30FE); (0xA015, 0xA015);
   (0xA4F8, 0xA4FD); (0xA60C, 0xA60C); (0xA66F, 0xA672); (0xA674, 0xA67D);
   (0xA67F, 0xA67F); (0xA69C, 0xA69F); (0xA6F0, 0xA6F1); (0xA700, 0xA721);
   (0xA770, 0xA770); (0xA788, 0xA78A); (0xA7F2, 0xA7F4); (0xA7F8, 0xA7F9);
   (0xA802, 0xA802); (0xA806, 0xA806); (0xA80B, 0xA80B); (0xA825, 0xA826);
   (0xA82C, 0xA82C); (0xA8C4, 0xA8C5); (0xA8E0, 0xA8F1); (0xA8FF, 0xA8FF);
   (0xA926, 0xA92D); (0xA947, 0xA951); (0xA980, 0xA982); (0xA9B3, 0xA9B3);
   (0xA9B6, 0xA9B9); (0xA9BC, 0xA9BD); (0xA9CF, 0xA9CF); (0xA9E5, 0xA9E6);
   (0xAA29, 0xAA2E); (0xAA31, 0xAA32); (0xAA35, 0xAA36); (0xAA43, 0xAA43);
   (0xAA4C, 0xAA4C); (0xAA70, 0xAA70); (0xAA7C, 0xAA7C); (0xAAB0, 0xAAB0);
   (0xAAB2, 0xAAB4); (0xAAB7, 0xAAB8); (0xAABE, 0xAABF); (0xAAC1, 0xAAC1);
   (0xAADD, 0xAADD); (0xAAEC, 0xAAED); (0xAAF3, 0xAAF4); (0xAAF6, 0xAAF6);
   (0xAB5B, 0xAB5F); (0xAB69, 0xAB6B); (0xABE5, 0xABE5); (0xABE8, 0xABE8);
   (0xABED, 0xABED); (0xFB1E, 0xFB1E); (0xFBB2, 0xFBC2); (0xFE00, 0xFE0F);
   (0xFE13, 0xFE13); (0xFE20, 0xFE2F); (0xFE52, 0xFE52); (0xFE55, 0xFE55);
   (0xFEFF, 0xFEFF); (0xFF07, 0xFF07); (0xFF0E, 0xFF0E); (0xFF1A, 0xFF1A);
   (0xFF3E, 0xFF3E); (0xFF40, 0xFF40); (0xFF70, 0xFF70); (0xFF9E, 0xFF9F);
   (0xFFE3, 0xFFE3); (0xFFF9, 0xFFFB); (0x101FD, 0x101FD); (0x102E0, 0x102E0);
   (0x10376, 0x1037A); (0x10780, 0x10785); (0x10787, 0x107B0);
   (0x107B2, 0x107BA); (0x10A01, 0x10A03); (0x10A05, 0x10A06);
   (0x10A0C, 0x10A0F); (0x10A38, 0x10A3A); (0x10A3F, 0x10A3F);
   (0x10AE5, 0x10AE6); (0x10D24, 0x10D27); (0x10EAB, 0x10EAC);
   (0x10F46, 0x10F50); (0x10F82, 0x10F85); (0x11001, 0x11001);
   (0x11038, 0x11046); (0x11070, 0x11070); (0x11073, 0x11074);
   (0x1107F, 0x11081); (0x110B3, 0x110B6); (0x110B9, 0x110BA);
   (0x110BD, 0x110BD); (0x110C2, 0x110C2); (0x110CD, 0x110CD);
   (0x11100, 0x11102); (0x11127, 0x1112B); (0x1112D, 0x11134);
   (0x11173, 0x11173); (0x11180, 0x11181); (0x111B6, 0x111BE);
   (0x111C9, 0x111CC); (0x111CF, 0x111CF); (0x1122F, 0x11231);
   (0x11234, 0x11234); (0x11236, 0x11237); (0x1123E, 0x1123E);
   (0x112DF, 0x112DF); (0x112E3, 0x112EA); (0x11300, 0x11301);
   (0x1133B, 0x1133C); (0x11340, 0x11340); (0x11366, 0x1136C);
   (0x11370, 0x11374); (0x11438, 0x1143F); (0x11442, 0x11444);
   (0x11446, 0x11446); (0x1145E, 0x1145E); (0x114B3, 0x114B8);
   (0x114BA, 0x114BA); (0x114BF, 0x114C0); (0x114C2, 0x114C3);
   (0x115B2, 0x115B5); (0x115BC, 0x115BD); (0x115BF, 0x115C0);
   (0x115DC, 0x115DD); (0x11633, 0x1163A); (0x1163D, 0x1163D);
   (0x1163F, 0x11640); (0x116AB, 0x116AB); (0x116AD, 0x116AD);
   (0x116B0, 0x116B5); (0x116B7, 0x116B7); (0x1171D, 0x1171F);
   (0x11722, 0x11725); (0x11727, 0x1172B); (0x1182F, 0x11837);
   (0x11839, 0x1183A); (0x1193B, 0x1193C); (0x1193E, 0x1193E);
   (0x11943, 0x11943); (0x119D4, 0x119D7); (0x119DA, 0x119DB);
   (0x119E0, 0x119E0); (0x11A01, 0x11A0A); (0x11A33, 0x11A38);
   (0x11A3B, 0x11A3E); (0x11A47, 0x11A47); (0x11A51, 0x11A56);
   (0x11A59, 0x11A5B); (0x11A8A, 0x11A96); (0x11A98, 0x11A99);
   (0x11C30, 0x11C36); (0x11C38, 0x11C3D); (0x11C3F, 0x11C3F);
   (0x11C92, 0x11CA7); (0x11CAA, 0x11CB0); (0x11CB2, 0x11CB3);
   (0x11CB5, 0x11CB6); (0x11D31, 0x11D36); (0x11D3A, 0x11D3A);
   (0x11D3C, 0x11D3D); (0x11D3F, 0x11D45); (0x11D47, 0x11D47);
   (0x11D90, 0x11D91); (0x11D95, 0x11D95); (0x11D97, 0x11D97);
   (0x11EF3, 0x11EF4); (0x13430, 0x13438); (0x16AF0, 0x16AF4);
   (0x16B30, 0x16B36); (0x16B40, 0x16B43); (0x16F4F, 0x16F4F);
   (0x16F8F, 0x16F9F); (0x16FE0, 0x16FE1); (0x16FE3, 0x16FE4);
   (0x1AFF0, 0x1AFF3); (0x1AFF5, 0x1AFFB); (0x1AFFD, 0x1AFFE);
   (0x1BC9D, 0x1BC9E); (0x1BCA0, 0x1BCA3); (0x1CF00, 0x1CF2D);
   (0x1CF30, 0x1CF46); (0x1D167, 0x1D169); (0x1D173, 0x1D182);
   (0x1D185, 0x1D18B); (0x1D1AA, 0x1D1AD); (0x1D242, 0x1D244);
   (0x1DA00, 0x1DA36); (0x1DA3B, 0x1DA6C); (0x1DA75, 0x1DA75);
   (0x1DA84, 0x1DA84); (0x1DA9B, 0x1DA9F); (0x1DAA1, 0x1DAAF);
   (0x1E000, 0x1E006); (0x1E008, 0x1E018); (0x1E01B, 0x1E021);
   (0x1E023, 0x1E024); (0x1E026, 0x1E02A); (0x1E130, 0x1E13D);
   (0x1E2AE, 0x1E2AE); (0x1E2EC, 0x1E2EF); (0x1E8D0, 0x1E8D6);
   (0x1E944, 0x1E94B); (0x1F3FB, 0x1F3FF); (0xE0001, 0xE0001);
   (0xE0020, 0xE007F); (0xE0100, 0xE01EF)
  ].

(** The code points with the property Cased, as ranges [(first, last)]. *)
Definition cased_ranges : list (N * N) :=
  [
   (0x41, 0x5A); (0x61, 0x7A); (0xAA, 0xAA); (0xB5, 0xB5); (0xBA, 0xBA);
   (0xC0, 0xD6); (0xD8, 0xF6); (0xF8, 0x1BA); (0x1BC, 0x1BF); (0x1C4, 0x293);
   (0x295, 0x2B8); (0x2C0, 0x2C1); (0x2E0, 0x2E4); (0x345, 0x345);
   (0x370, 0x373); (0x376, 0x377); (0x37A, 0x37D); (0x37F, 0x37F);
   (0x386, 0x386); (0x388, 0x38A); (0x38C, 0x38C); (0x38E, 0x3A1);
   (0x3A3, 0x3F5); (0x3F7, 0x481); (0x48A, 0x52F); (0x531, 0x556);
   (0x560, 0x588); (0x10A0, 0x10C5); (0x10C7, 0x10C7); (0x10CD, 0x10CD);
   (0x10D0, 0x10FA); (0x10FD, 0x10FF); (0x13A0, 0x13F5); (0x13F8, 0x13FD);
   (0x1C80, 0x1C88); (0x1C90, 0x1CBA); (0x1CBD, 0x1CBF); (0x1D00, 0x1DBF);
   (0x1E00, 0x1F15); (0x1F18, 0x1F1D); (0x1F20, 0x1F45); (0x1F48, 0x1F4D);
   (0x1F50, 0x1F57); (0x1F59, 0x1F59); (0x1F5B, 0x1F5B); (0x1F5D, 0x1F5D);
   (0x1F5F, 0x1F7D); (0x1F80, 0x1FB4); (0x1FB6, 0x1FBC); (0x1FBE, 0x1FBE);
   (0x1FC2, 0x1FC4); (0x1FC6, 0x1FCC); (0x1FD0, 0x1FD3); (0x1FD6, 0x1FDB);
   (0x1FE0, 0x1FEC); (0x1FF2, 0x1FF4); (0x1FF6, 0x1FFC); (0x2071, 0x2071);
   (0x207F, 0x207F); (0x2090, 0x209C); (0x2102, 0x2102); (0x2107, 0x2107);
   (0x210A, 0x2113); (0x2115, 0x2115); (0x2119, 0x211D); (0x2124, 0x2124);
   (0x2126, 0x2126); (0x2128, 0x2128); (0x212A, 0x212D); (0x212F, 0x2134);
   (0x2139, 0x2139); (0x213C, 0x213F); (0x2145, 0x2149); (0x214E, 0x214E);
   (0x2160, 0x217F); (0x2183, 0x2184); (0x24B6, 0x24E9); (0x2C00, 0x2CE4);
   (0x2CEB, 0x2CEE); (0x2CF2, 0x2CF3); (0x2D00, 0x2D25); (0x2D27, 0x2D27);
   (0x2D2D, 0x2D2D); (0xA640, 0xA66D); (0xA680, 0xA69D); (0xA722, 0xA787);
   (0xA78B, 0xA78E); (0xA790, 0xA7CA); (0xA7D0, 0xA7D1); (0xA7D3, 0xA7D3);
   (0xA7D5, 0xA7D9); (0xA7F5, 0xA7F6); (0xA7F8, 0xA7FA); (0xAB30, 0xAB5A);
   (0xAB5C, 0xAB68); (0xAB70, 0xABBF); (0xFB00, 0xFB06); (0xFB13, 0xFB17);
   (0xFF21, 0xFF3A); (0xFF41, 0xFF5A); (0x10400, 0x1044F); (0x104B0, 0x104D3);
   (0x104D8, 0x104FB); (0x10570, 0x1057A); (0x1057C, 0x1058A);
   (0x1058C, 0x10592); (0x10594, 0x10595); (0x10597, 0x105A1);
   (0x105A3, 0x105B1); (0x105B3, 0x105B9); (0x105BB, 0x105BC);
   (0x10780, 0x10780); (0x10783, 0x10785); (0x10787, 0x107B0);
   (0x107B2, 0x107BA); (0x10C80, 0x10CB2); (0x10CC0, 0x10CF2);
   (0x118A0, 0x118DF); (0x16E40, 0x16E7F); (0x1D400, 0x1D454);
   (0x1D456, 0x1D49C); (0x1D49E, 0x1D49F); (0x1D4A2, 0x1D4A2);
   (0x1D4A5, 0x1D4A6); (0x1D4A9, 0x1D4AC); (0x1D4AE, 0x1D4B9);
   (0x1D4BB, 0x1D4BB); (0x1D4BD, 0x1D4C3); (0x1D4C5, 0x1D505);
   (0x1D507, 0x1D50A); (0x1D50D, 0x1D514); (0x1D516, 0x1D51C);
   (0x1D51E, 0x1D539); (0x1D53B, 0x1D53E); (0x1D540, 0x1D544);
   (0x1D546, 0x1D546); (0x1D54A, 0x1D550); (0x1D552, 0x1D6A5);
   (0x1D6A8, 0x1D6C0); (0x1D6C2, 0x1D6DA); (0x1D6DC, 0x1D6FA);
   (0x1D6FC, 0x1D714); (0x1D716, 0x1D734); (0x1D736, 0x1D74E);
   (0x1D750, 0x1D76E); (0x1D770, 0x1D788); (0x1D78A, 0x1D7A8);
   (0x1D7AA, 0x1D7C2); (0x1D7C4, 0x1D7CB); (0x1DF00, 0x1DF09);
   (0x1DF0B, 0x1DF1E); (0x1E900, 0x1E943); (0x1F130, 0x1F149);
   (0x1F150, 0x1F169); (0x1F170, 0x1F189)
  ].

Definition in_ranges (c : N) (ranges : list (N * N)) : bool :=
  existsb (fun '(first, last) => (first <=? c) && (c <=? last)) ranges.

Definition is_case_ignorable (c : N) : bool :=
  in_ranges c case_ignorable_ranges.
Definition is_cased (c : N) : bool := in_ranges c cased_ranges.

(** The lower case of a capital sigma depends on where it stands: it is
    the final sigma U+03C2 when a cased code point comes before it, with
    nothing but case-ignorable code points in between, and no cased code
    point comes after it in the same way; it is U+03C3 otherwise.
    [before] holds the code points before the sigma, the nearest first,
    [after] the ones after it. *)
Definition handle_capital_sigma (before after : list N) : N :=
  let final_sigma :=
    match find (fun c => negb (is_case_ignorable c)) before with
    | Some c => is_cased c
    | None => false
    end in
  let final_sigma :=
    final_sigma &&
    match find (fun c => negb (is_case_ignorable c)) after with
    | Some c => negb (is_cased c)
    | None => true
    end in
  if final_sigma then 0x3C2 else 0x3C3.

Definition upper (s : str) : str := flat_map upper_cp s.

Fixpoint lower_from (before : list N) (s : str) : str :=
  match s with
  | [] => []
  | c :: rest =>
    (if c =? 0x3A3 then [handle_capital_sigma before rest] else lower_cp c)
    ++ lower_from (c :: before) rest
  end.

Definition lower (s : str) : str := lower_from [] s.




(** [str.isspace()] on one code point: the white-space set of CPython. *)
Definition isspace_cp (c : N) : bool :=
  ((0x09 <=? c) && (c <=? 0x0D)) || ((0x1C <=? c) && (c <=? 0x20))
  || (c =? 0x85) || (c =? 0xA0) || (c =? 0x1680)
  || ((0x2000 <=? c) && (c <=? 0x200A))
  || (c =? 0x2028) || (c =? 0x2029) || (c =? 0x202F) || (c =? 0x205F)
  || (c =? 0x3000).

Fixpoint lstrip (s : str) : str :=
  match s with
  | [] => []
  | c :: r => if isspace_cp c then lstrip r else s
  end.

Definition rstrip (s : str) : str := rev (lstrip (rev s)).

(** [str.strip()] *)
Definition strip (s : str) : str := rstrip (lstrip s).

(** Truth value of a string, of an optional value, of [bytes]. *)
Definition truthy {A} (l : list A) : bool :=
  match l with [] => false | _ => true end.

Definition truthy_opt {A} (t : A -> bool) (o : option A) : bool :=
  match o with Some a => t a | None => false end.

(** [repr] of a name inside a message: the name between single quotes. *)
Definition quoted (s : str) : str := py "'" ++ s ++ py "'".

(** ** Exceptions *)

(** The exception classes the sources raise themselves, the pydantic
    validation error, and the exceptions of the collaborators that live
    outside these modules (parser, crypto, key resolver).  [NonException]
    stands for the classes that derive from [BaseException] without
    deriving from [Exception] (KeyboardInterrupt, SystemExit). *)
Inductive exn : Type :=
| ValueError (msg : str)
| TypeError (msg : str)
| FrozenInstanceError (msg : str)
| ValidationError (model : string) (invalid : list string)
| ForeignException (cls : string) (msg : str)
| NonException (cls : string).

(** [isinstance(e, Exception)] *)
Definition is_Exception (e : exn) : bool :=
  match e with NonException _ => false | _ => true end.

(** [isinstance(e, ValueError)]: pydantic's ValidationError derives from
    ValueError. *)
Definition is_ValueError (e : exn) : bool :=
  match e with ValueError _ | ValidationError _ _ => true | _ => false end.

(** [str(e)].  For a pydantic validation error this is the headline of
    the message, the count of the invalid fields and the model; the lines
    that follow it, one group per field, are left out. *)
Definition exn_str (e : exn) : str :=
  match e with
  | ValueError msg | TypeError msg | FrozenInstanceError msg => msg
  | ValidationError model invalid =>
    py (NilEmpty.string_of_uint (N.to_uint (N.of_nat (length invalid))))
    ++ py (if (length invalid =? 1)%nat
           then " validation error for " else " validation errors for ")
    ++ py model
  | ForeignException _ msg => msg
  | NonException _ => []
  end.

Inductive res (A : Type) : Type :=
| Ok (a : A)
| Raise (e : exn).
Arguments Ok {A} a.
Arguments Raise {A} e.

#[global] Instance res_ret : MRet res := fun A a => Ok a.
#[global] Instance res_bind : MBind res := fun A B f r =>
  match r with Ok a => f a | Raise e => Raise e end.
#[global] Instance res_fmap : FMap res := fun A B f r =>
  match r with Ok a => Ok (f a) | Raise e => Raise e end.

(** ** Effects: a state and exception monad

    A computation takes the state and gives a result or a raised exception
    together with the state it leaves: what was written before a raise
    stays written. *)
Definition St (S A : Type) : Type := S -> res A * S.

#[global] Instance St_ret {S} : MRet (St S) := fun A a s => (Ok a, s).
#[global] Instance St_bind {S} : MBind (St S) := fun A B f m s =>
  match m s with
  | (Ok a, s') => f a s'
  | (Raise e, s') => (Raise e, s')
  end.

Definition lift {S A} (r : res A) : St S A := fun s => (r, s).
Definition get_state {S} : St S S := fun s => (Ok s, s).
Definition modify {S} (f : S -> S) : St S unit := fun s => (Ok tt, f s).

(** [for x in xs: body(x)] *)
Fixpoint for_each {S A} (xs : list A) (body : A -> St S unit) : St S unit :=
  match xs with
  | [] => mret tt
  | x :: r => body x ;; for_each r body
  end.

End Py.
Import Py.

(** ** Data model ([model/models.py] and the view classes)

    Each class is a module holding its record [t]; the fields keep the
    names of the attributes. *)

(** [datetime.date] *)
Record date : Type := mk_date { year : Z; month : Z; day : Z }.

(** [decimal.Decimal]: sign, coefficient and exponent. *)
Record Decimal : Type :=
  mk_Decimal { negative : bool; coefficient : N; exponent : Z }.

(** [bool(d)] for a [Decimal]: false exactly for a zero. *)
Definition Decimal_truthy (d : Decimal) : bool := negb (coefficient d =? 0).

(** The public key handed out by the key resolver: opaque key material. *)
Definition PublicKey : Type := list byte.

(** What [dataclasses] generates for [__setattr__]: on a frozen class every
    assignment raises, otherwise the attribute is stored. *)
Definition dataclass_setattr {T V} (frozen : bool) (name : str)
    (store : T -> V -> T) (self : T) (value : V) : res T :=
  if frozen
  then Raise (FrozenInstanceError (py "cannot assign to field " ++ quoted name))
  else Ok (store self value).

(** [@dataclass(frozen=True) class Header] *)
Module Header.

Record t : Type := mk {
  raw : str;
  marker : str;
  version : Z;
  ca_id : str;
  cert_id : str;
  issue_date : option date;
  signature_date : option date;
  doc_type : str;
  perimeter : str;
  country : str;
  header_len : Z
}.

Definition frozen : bool := true.

Inductive field : Type :=
| f_raw | f_marker | f_version | f_ca_id | f_cert_id | f_issue_date
| f_signature_date | f_doc_type | f_perimeter | f_country | f_header_len.

Definition field_name (f : field) : str :=
  match f with
  | f_raw => py "raw"
  | f_marker => py "marker"
  | f_version => py "version"
  | f_ca_id => py "ca_id"
  | f_cert_id => py "cert_id"
  | f_issue_date => py "issue_date"
  | f_signature_date => py "signature_date"
  | f_doc_type => py "doc_type"
  | f_perimeter => py "perimeter"
  | f_country => py "country"
  | f_header_len => py "header_len"
  end.

Definition field_type (f : field) : Type :=
  match f with
  | f_version | f_header_len => Z
  | f_issue_date | f_signature_date => option date
  | _ => str
  end.

(** The attribute read, [getattr(self, f)]. *)
Definition getattr (f : field) : t -> field_type f :=
  match f with
  | f_raw => raw
  | f_marker => marker
  | f_version => version
  | f_ca_id => ca_id
  | f_cert_id => cert_id
  | f_issue_date => issue_date
  | f_signature_date => signature_date
  | f_doc_type => doc_type
  | f_perimeter => perimeter
  | f_country => country
  | f_header_len => header_len
  end.

(** The plain attribute store, the one a class that is not frozen has. *)
Definition store (f : field) : t -> field_type f -> t :=
  match f with
  | f_raw => fun h v =>
    mk v (marker h) (version h) (ca_id h) (cert_id h) (issue_date h)
       (signature_date h) (doc_type h) (perimeter h) (country h) (header_len h)
  | f_marker => fun h v =>
    mk (raw h) v (version h) (ca_id h) (cert_id h) (issue_date h)
       (signature_date h) (doc_type h) (perimeter h) (country h) (header_len h)
  | f_version => fun h v =>
    mk (raw h) (marker h) v (ca_id h) (cert_id h) (issue_date h)
       (signature_date h) (doc_type h) (perimeter h) (country h) (header_len h)
  | f_ca_id => fun h v =>
    mk (raw h) (marker h) (version h) v (cert_id h) (issue_date h)
       (signature_date h) (doc_type h) (perimeter h) (country h) (header_len h)
  | f_cert_id => fun h v =>
    mk (raw h) (marker h) (version h) (ca_id h) v (issue_date h)
       (signature_date h) (doc_type h) (perimeter h) (country h) (header_len h)
  | f_issue_date => fun h v =>
    mk (raw h) (marker h) (version h) (ca_id h) (cert_id h) v
       (signature_date h) (doc_type h) (perimeter h) (country h) (header_len h)
  | f_signature_date => fun h v =>
    mk (raw h) (marker h) (version h) (ca_id h) (cert_id h) (issue_date h)
       v (doc_type h) (perimeter h) (country h) (header_len h)
  | f_doc_type => fun h v =>
    mk (raw h) (marker h) (version h) (ca_id h) (cert_id h) (issue_date h)
       (signature_date h) v (perimeter h) (country h) (header_len h)
  | f_perimeter => fun h v =>
    mk (raw h) (marker h) (version h) (ca_id h) (cert_id h) (issue_date h)
       (signature_date h) (doc_type h) v (country h) (header_len h)
  | f_country => fun h v =>
    mk (raw h) (marker h) (version h) (ca_id h) (cert_id h) (issue_date h)
       (signature_date h) (doc_type h) (perimeter h) v (header_len h)
  | f_header_len => fun h v =>
    mk (raw h) (marker h) (version h) (ca_id h) (cert_id h) (issue_date h)
       (signature_date h) (doc_type h) (perimeter h) (country h) v
  end.

(** [self.<f> = value] on a [Header]. *)
Definition setattr (self : t) (f : field) (value : field_type f) : res t :=
  dataclass_setattr frozen (field_name f) (store f) self value.

End Header.

(** [@dataclass class SignatureBlock] *)
Module SignatureBlock.

Record t : Type := mk {
  present : bool;
  b32 : option str;
  raw : option bytes;
  alg_hint : option str
}.

End SignatureBlock.

(** [class AdresseIdentite(BaseModel)], every attribute optional. *)
Module AdresseIdentite.

Record t : Type := mk {
  ligne_2 : option str;
  ligne_3 : option str;
  voie : option str;
  lieu_dit : option str;
  code_postal : option str;
  commune : option str;
  pays : option str
}.

End AdresseIdentite.

(** [class CarteIdentite(BaseModel)]: an instance that passed the
    validation of its constructor.  [nom_patronymique] is declared
    [str = None]. *)
Module CarteIdentite.

Record t : Type := mk {
  doc_type : str;
  liste_prenoms : str;
  prenom : option str;
  nom_patronymique : option str;
  nom_usage : option str;
  type_piece_identite : str;
  numero_document : str;
  nationalite : str;
  genre : str;
  date_naissance : option date;
  lieu_naissance : option str;
  pays_naissance : str;
  mrz : option str;
  date_debut_validite : option date;
  date_fin_validite : option date;
  adresse : AdresseIdentite.t;
  extras : gmap str str
}.

End CarteIdentite.

(** [@dataclass class AdresseImposition] *)
Module AdresseImposition.

Record t : Type := mk {
  full : option str;
  voie : option str;
  complement : option str;
  code_postal : option str;
  commune : option str;
  pays : option str
}.

Definition is_ok_28 (self : t) : bool :=
  let struct_ok :=
    truthy_opt truthy (voie self) && truthy_opt truthy (code_postal self)
    && truthy_opt truthy (commune self) && truthy_opt truthy (pays self) in
  truthy_opt truthy (full self) || struct_ok.

End AdresseImposition.

(** [@dataclass class AvisImposition]: a plain dataclass, its constructor
    stores what it is given, so the converted values stay optional. *)
Module AvisImposition.

Record t : Type := mk {
  doc_type : str;
  nombre_de_parts : option Decimal;
  reference_avis : str;
  annee_des_revenus : option Z;
  declarant_1 : str;
  revenu_fiscal_de_reference : option Z;
  declarant_1_numero_fiscal : option str;
  declarant_2 : option str;
  declarant_2_numero_fiscal : option str;
  date_mise_en_recouvrement : option date;
  impot_revenu_net : option Z;
  reste_a_payer : option Z;
  retenue_a_la_source : option Z;
  adresse : AdresseImposition.t;
  extras : gmap str str
}.

End AvisImposition.

(** Modelled from the spec: [GenericDoc] of [type/base.py], which is not
    part of the sources at hand; the generic view retains the type, the
    perimeter, the country and the fields, uninterpreted. *)
Module GenericDoc.

Record t : Type := mk {
  doc_type : str;
  perimeter : str;
  country : str;
  fields : gmap str str
}.

End GenericDoc.

(** The values a [typed] attribute holds. *)
Inductive TypedView : Type :=
| TV_CarteIdentite (v : CarteIdentite.t)
| TV_AvisImposition (v : AvisImposition.t)
| TV_GenericDoc (v : GenericDoc.t).

(** [key_resolver.resolve(ca_id, cert_id)] *)
Definition KeyResolver : Type := str -> str -> res PublicKey.

(** [@dataclass class Decoded2DDoc] *)
Module Decoded2DDoc.

Record t : Type := mk {
  header : Header.t;
  sign_payload : bytes;
  fields : gmap str str;
  typed : option TypedView;
  signature : SignatureBlock.t;
  is_valid : bool;
  ants_type : option str
}.

(** The defaults of the optional constructor arguments. *)
Definition default_fields : gmap str str := ∅.
Definition default_typed : option TypedView := None.
Definition default_signature : SignatureBlock.t :=
  SignatureBlock.mk false None None None.
Definition default_is_valid : bool := false.
Definition default_ants_type : option str := None.

(** Attribute stores; the class is not frozen. *)
Definition set_typed (v : option TypedView) (self : t) : t :=
  mk (header self) (sign_payload self) (fields self) v (signature self)
     (is_valid self) (ants_type self).

Definition set_ants_type (v : option str) (self : t) : t :=
  mk (header self) (sign_payload self) (fields self) (typed self)
     (signature self) (is_valid self) v.

Definition set_is_valid (v : bool) (self : t) : t :=
  mk (header self) (sign_payload self) (fields self) (typed self)
     (signature self) v (ants_type self).

Section verify.

(** [verify_signature] of [crypto/crypto.py] is not part of the sources at
    hand: it is taken as it comes. *)
Variable verify_signature : bytes -> bytes -> PublicKey -> res bool.

(** [Decoded2DDoc.verify(self, key_resolver)]; the state is [self]. *)
Definition verify (key_resolver : KeyResolver) : St t unit :=
  self ← get_state;
  if negb (SignatureBlock.present (signature self))
     || negb (truthy_opt truthy (SignatureBlock.raw (signature self)))
  then lift (Raise (ValueError (py "Pas de signature présente dans ce 2D-DOC.")))
  else
    pub ← lift (key_resolver (Header.ca_id (header self))
                             (Header.cert_id (header self)));
    valid ← lift (verify_signature (sign_payload self)
                    (default [] (SignatureBlock.raw (signature self))) pub);
    modify (set_is_valid valid).

End verify.

End Decoded2DDoc.

(** ** registry/registry.py *)

(** [TypeHandler = Callable[[Decoded2DDoc], Any]] *)
Definition TypeHandler : Type := Decoded2DDoc.t -> res TypedView.

(** [class TypeRegistry]: the dict [_handlers]. *)
Module TypeRegistry.

Abbreviation t := (gmap str (TypeHandler * str)).

Definition init : t := ∅.

Definition register (self : t) (code : str) (handler : TypeHandler)
    (name : str) : t :=
  <[upper code := (handler, name)]> self.

Definition get (self : t) (code : str) : option (TypeHandler * str) :=
  self !! upper code.

End TypeRegistry.

(** ** The globals of the interpreter

    [_registry] of [registry.py], [_handlers_loaded] of [api.py], the names
    in [sys.modules] and what has been printed. *)
Record world : Type := mk_world {
  _registry : TypeRegistry.t;
  _handlers_loaded : bool;
  sys_modules : list string;
  stdout : list str
}.

Definition set_registry (r : TypeRegistry.t) (w : world) : world :=
  mk_world r (_handlers_loaded w) (sys_modules w) (stdout w).

Definition set_handlers_loaded (b : bool) (w : world) : world :=
  mk_world (_registry w) b (sys_modules w) (stdout w).

Definition add_sys_module (name : string) (w : world) : world :=
  mk_world (_registry w) (_handlers_loaded w) (sys_modules w ++ [name])
           (stdout w).

(** [print(line)] *)
Definition print (line : str) : St world unit :=
  modify (fun w =>
    mk_world (_registry w) (_handlers_loaded w) (sys_modules w)
             (stdout w ++ [line])).

(** [register(code, name)] gives the decorator [deco]; [deco(fn)] stores
    [fn] in the global registry and gives [fn] back. *)
Definition register (code name : str) (fn : TypeHandler)
  : St world TypeHandler :=
  modify (fun w =>
    set_registry (TypeRegistry.register (_registry w) code fn name) w) ;;
  mret fn.

(** A call of [register] with positional arguments only: both parameters
    are required. *)
Definition call_register (args : list str)
  : res (TypeHandler -> St world TypeHandler) :=
  match args with
  | [] =>
    Raise (TypeError (py
      "register() missing 2 required positional arguments: 'code' and 'name'"))
  | [code] =>
    Raise (TypeError (py
      "register() missing 1 required positional argument: 'name'"))
  | [code; name] => Ok (register code name)
  | _ =>
    Raise (TypeError
      (py "register() takes 2 positional arguments but "
       ++ py (NilEmpty.string_of_uint (N.to_uint (N.of_nat (length args))))
       ++ py " were given"))
  end.

Definition get_handler (code : str) : St world (option (TypeHandler * str)) :=
  w ← get_state;
  mret (TypeRegistry.get (_registry w) code).

(** ** What the type modules import from outside the sources at hand

    The converters of [parser/helper.py], taken as they come, and the way
    the installed pydantic reads an annotation [x: str = None]: pydantic 1
    makes the field optional, pydantic 2 keeps it a [str]. *)
Record imports : Type := mk_imports {
  to_date_ddmmyyyy : option str -> res (option date);
  to_int : option str -> res (option Z);
  to_dec : option str -> res (option Decimal);
  pydantic_implicit_optional : bool
}.

(** ** type/doc07_carte_identite.py *)

(** The constructor of the pydantic model [CarteIdentite]: the values are
    validated against the annotations of the class, the fields that fail
    are reported together.  [doc_type] is [Literal["07"]];
    [pays_naissance] is a required [str], for which [None] is not valid;
    the other arguments have the type of their annotation by
    construction. *)
Definition CarteIdentite_init (X : imports)
    (doc_type liste_prenoms : str) (prenom nom_patronymique nom_usage : option str)
    (type_piece_identite numero_document nationalite genre : str)
    (date_naissance : option date) (lieu_naissance pays_naissance mrz : option str)
    (date_debut_validite date_fin_validite : option date)
    (adresse : AdresseIdentite.t) (extras : gmap str str)
  : res CarteIdentite.t :=
  let invalid : list string :=
    (if bool_decide (doc_type = py "07") then [] else ["doc_type"%string])
    ++ (if pydantic_implicit_optional X || bool_decide (is_Some nom_patronymique)
        then [] else ["nom_patronymique"%string])
    ++ (if bool_decide (is_Some pays_naissance)
        then [] else ["pays_naissance"%string]) in
  match invalid, pays_naissance with
  | [], Some pays =>
    Ok (CarteIdentite.mk doc_type liste_prenoms prenom nom_patronymique
          nom_usage type_piece_identite numero_document nationalite genre
          date_naissance lieu_naissance pays mrz date_debut_validite
          date_fin_validite adresse extras)
  | _, _ => Raise (ValidationError "CarteIdentite" invalid)
  end.

(** [CarteIdentite.validate(self)] *)
Definition CarteIdentite_validate (self : CarteIdentite.t) : res unit :=
  if negb (truthy (CarteIdentite.liste_prenoms self))
  then Raise (ValueError (py "La liste des prénoms (60) est obligatoire."))
  else if negb (truthy (CarteIdentite.nationalite self))
  then Raise (ValueError (py "La nationalité (67) est obligatoire."))
  else if negb (truthy (CarteIdentite.genre self))
  then Raise (ValueError (py "Le genre (68) est obligatoire."))
  else Ok tt.

Definition known_07 : list str :=
  map py ["60"; "61"; "62"; "63"; "65"; "66"; "67"; "68";
          "69"; "6A"; "6C"; "6F"; "6N"; "6O";
          "6S"; "6T"; "6U"; "6V"; "6W"; "6X"; "6Y"]%string.

(** [CarteIdentite.from_decoded(d)]; the arguments of the constructor are
    evaluated from left to right, then the object is built and validated. *)
Definition CarteIdentite_from_decoded (X : imports) (d : Decoded2DDoc.t)
  : res CarteIdentite.t :=
  let f := Decoded2DDoc.fields d in
  let adresse :=
    AdresseIdentite.mk (f !! py "6S") (f !! py "6T") (f !! py "6U")
      (f !! py "6V") (f !! py "6W") (f !! py "6X") (f !! py "6Y") in
  let extras := filter (fun kv => kv.1 ∉ known_07) f in
  date_naissance ← to_date_ddmmyyyy X (f !! py "69");
  date_debut_validite ← to_date_ddmmyyyy X (f !! py "6N");
  date_fin_validite ← to_date_ddmmyyyy X (f !! py "6O");
  obj ← CarteIdentite_init X
    (Header.doc_type (Decoded2DDoc.header d))
    (strip (default [] (f !! py "60")))
    (f !! py "61")
    (f !! py "62")
    (f !! py "63")
    (strip (default [] (f !! py "65")))
    (strip (default [] (f !! py "66")))
    (strip (default [] (f !! py "67")))
    (strip (default [] (f !! py "68")))
    date_naissance
    (f !! py "6A")
    (f !! py "6C")
    (f !! py "6F")
    date_debut_validite
    date_fin_validite
    adresse
    extras;
  CarteIdentite_validate obj ;;
  mret obj.

Definition _handle_07 (X : imports) : TypeHandler := fun doc =>
  TV_CarteIdentite <$> CarteIdentite_from_decoded X doc.

(** ** type/doc28_avis_impots.py *)

(** [AvisImposition.validate(self)] *)
Definition AvisImposition_validate (self : AvisImposition.t) : res unit :=
  if negb (truthy_opt Decimal_truthy (AvisImposition.nombre_de_parts self))
  then Raise (ValueError (py "Nombre de parts (43) est obligatoire."))
  else if negb (truthy (AvisImposition.reference_avis self))
  then Raise (ValueError (py "Référence d’avis (44) est obligatoire."))
  else if negb (truthy_opt (fun n => negb (n =? 0)%Z)
                           (AvisImposition.annee_des_revenus self))
  then Raise (ValueError (py "Année des revenus (45) est obligatoire."))
  else if negb (truthy (AvisImposition.declarant_1 self))
  then Raise (ValueError (py "Déclarant 1 (46) est obligatoire."))
  else if negb (truthy_opt (fun _ => true)
                           (AvisImposition.date_mise_en_recouvrement self))
  then Raise (ValueError
                (py "Date de mise en recouvrement (4A) est obligatoire."))
  else if negb (AdresseImposition.is_ok_28 (AvisImposition.adresse self))
  then Raise (ValueError
                (py "Adresse invalide : fournir 4Y ou bien 6U+6W+6X+6Y."))
  else Ok tt.

Definition known_28 : list str :=
  map py ["41"; "43"; "44"; "45"; "46"; "47"; "48"; "49"; "4A";
          "4V"; "4W"; "4X"; "4Y"; "6U"; "6V"; "6W"; "6X"; "6Y"]%string.

(** [AvisImposition.from_decoded(d)] *)
Definition AvisImposition_from_decoded (X : imports) (d : Decoded2DDoc.t)
  : res AvisImposition.t :=
  let f := Decoded2DDoc.fields d in
  let adresse :=
    AdresseImposition.mk (f !! py "4Y") (f !! py "6U") (f !! py "6V")
      (f !! py "6W") (f !! py "6X") (f !! py "6Y") in
  let extras := filter (fun kv => kv.1 ∉ known_28) f in
  revenu_fiscal_de_reference ← to_int X (f !! py "41");
  nombre_de_parts ← to_dec X (f !! py "43");
  annee_des_revenus ← to_int X (f !! py "45");
  date_mise_en_recouvrement ← to_date_ddmmyyyy X (f !! py "4A");
  impot_revenu_net ← to_int X (f !! py "4V");
  reste_a_payer ← to_int X (f !! py "4W");
  retenue_a_la_source ← to_int X (f !! py "4X");
  let obj :=
    AvisImposition.mk
      (Header.doc_type (Decoded2DDoc.header d))
      nombre_de_parts
      (strip (default [] (f !! py "44")))
      annee_des_revenus
      (strip (default [] (f !! py "46")))
      revenu_fiscal_de_reference
      (f !! py "47")
      (f !! py "48")
      (f !! py "49")
      date_mise_en_recouvrement
      impot_revenu_net
      reste_a_payer
      retenue_a_la_source
      adresse
      extras in
  AvisImposition_validate obj ;;
  mret obj.

Definition _handle_28 (X : imports) : TypeHandler := fun doc =>
  TV_AvisImposition <$> AvisImposition_from_decoded X doc.

(** ** Modules and their import *)

(** A module of the package [fr_2ddoc_parser.type]: its dotted name and
    what running its top-level code does to the globals. *)
Record pymodule : Type := mk_module {
  mod_name : string;
  mod_body : St world unit
}.

(** [importlib.import_module(name)]: a module already in [sys.modules] is
    not run again; a module whose top-level code raises is not recorded,
    and the exception goes to the importer. *)
Definition import_module (m : pymodule) : St world unit :=
  w ← get_state;
  if bool_decide (mod_name m ∈ sys_modules w) then mret tt
  else mod_body m ;; modify (add_sys_module (mod_name m)).

(** [type/base.py] is imported by [api.py] itself, for [GenericDoc]; it is
    in [sys.modules] before any decode and registers nothing. *)
Definition base_module : pymodule :=
  mk_module "fr_2ddoc_parser.type.base" (mret tt).

(** [type/doc07_carte_identite.py]: the classes, then
    [@register("07", "carte_identite") def _handle_07]. *)
Definition doc07_module (X : imports) : pymodule :=
  mk_module "fr_2ddoc_parser.type.doc07_carte_identite"
    (deco ← lift (call_register [py "07"; py "carte_identite"]);
     deco (_handle_07 X) ;;
     mret tt).

Definition doc28_name : string := "fr_2ddoc_parser.type.doc28_avis_impots".

(** [type/doc28_avis_impots.py]: the classes, then
    [@register("28") def _handle_28]. *)
Definition doc28_module (X : imports) : pymodule :=
  mk_module doc28_name
    (deco ← lift (call_register [py "28"]);
     deco (_handle_28 X) ;;
     mret tt).

(** The modules of the package, in the order [pkgutil.iter_modules] lists
    them (by name). *)
Definition type_package (X : imports) : list pymodule :=
  [base_module; doc07_module X; doc28_module X].

(** The globals when [api] has just been imported; of [sys.modules] only
    the modules of the package [fr_2ddoc_parser.type] are kept track of. *)
Definition initial_world : world :=
  mk_world TypeRegistry.init false [mod_name base_module] [].

Definition missing_name_error : exn :=
  TypeError (py "register() missing 1 required positional argument: 'name'").

(** The handlers have not been loaded, the module of type 28 is not in
    [sys.modules], and no handler is registered under "28". *)
Definition doc28_unloaded (w : world) : Prop :=
  _handlers_loaded w = false
  /\ (doc28_name ∉ sys_modules w)
  /\ TypeRegistry.get (_registry w) (py "28") = None.

(** ** api.py *)

(** What [api.py] takes from outside the sources at hand: [parse] of
    [parser/parser.py], [local_key_resolver] of [crypto/key_resolver.py],
    [verify_signature] of [crypto/crypto.py] (used by [models.py]), and the
    modules [pkgutil.iter_modules] finds in the directory of the package
    [fr_2ddoc_parser.type]. *)
Record Env : Type := mk_Env {
  parse : str -> res Decoded2DDoc.t;
  local_key_resolver : KeyResolver;
  verify_signature : bytes -> bytes -> PublicKey -> res bool;
  iter_modules : list pymodule
}.

(** The environment of the repository: the package holds the modules of
    [type_package]. *)
Definition repo_env (X : imports) (parse : str -> res Decoded2DDoc.t)
    (resolver : KeyResolver)
    (verify_signature : bytes -> bytes -> PublicKey -> res bool) : Env :=
  mk_Env parse resolver verify_signature (type_package X).

Definition _ensure_handlers_loaded (E : Env) : St world unit :=
  w ← get_state;
  if _handlers_loaded w then mret tt
  else
    for_each (iter_modules E) import_module ;;
    modify (set_handlers_loaded true).

(** A method call on an object from code that runs over the globals: the
    outcome of the call comes with the object as the call left it. *)
Definition call_method {S O A} (m : St O A) (self : O) : St S (res A * O) :=
  fun s => (Ok (m self), s).

(** Lines 40 to 54 of [decode_2d_doc]: the handler registered for the type
    of the document builds the typed view, or the generic view is built. *)
Definition dispatch (parsed_data : Decoded2DDoc.t) : St world Decoded2DDoc.t :=
  tuple ← get_handler (Header.doc_type (Decoded2DDoc.header parsed_data));
  let detected_handler := fst <$> tuple in
  let handler_name := snd <$> tuple in
  match detected_handler with
  | Some detected_handler =>
    typed ← lift (detected_handler parsed_data);
    mret (Decoded2DDoc.set_ants_type handler_name
            (Decoded2DDoc.set_typed (Some typed) parsed_data))
  | None =>
    mret (Decoded2DDoc.set_typed
            (Some (TV_GenericDoc (GenericDoc.mk
               (Header.doc_type (Decoded2DDoc.header parsed_data))
               (Header.perimeter (Decoded2DDoc.header parsed_data))
               (Header.country (Decoded2DDoc.header parsed_data))
               (Decoded2DDoc.fields parsed_data))))
            parsed_data)
  end.

(** Lines 55 to 59: [verify] under [try], [except Exception] prints a
    warning and goes on. *)
Definition attempt_verify (E : Env) (parsed_data : Decoded2DDoc.t)
  : St world Decoded2DDoc.t :=
  '(outcome, parsed_data) ←
    call_method (Decoded2DDoc.verify (verify_signature E) (local_key_resolver E))
                parsed_data;
  match outcome with
  | Ok _ => mret tt
  | Raise e =>
    if is_Exception e
    then print (py "Warning: signature verification failed: " ++ exn_str e)
    else lift (Raise e)
  end ;;
  mret parsed_data.

Definition decode_2d_doc (E : Env) (data : str) : St world Decoded2DDoc.t :=
  parsed_data ← lift (parse E data);
  _ensure_handlers_loaded E ;;
  parsed_data ← dispatch parsed_data;
  parsed_data ← attempt_verify E parsed_data;
  mret parsed_data.

(** A caller that decodes one message after the other over the same
    globals and keeps every outcome, raised exceptions included. *)
Fixpoint decode_all (E : Env) (messages : list str) (w : world)
  : list (res Decoded2DDoc.t) :=
  match messages with
  | [] => []
  | data :: rest =>
    let '(outcome, w') := decode_2d_doc E data w in
    outcome :: decode_all E rest w'
  end.

(** The generic view of a document, as [dispatch] builds it. *)
Definition generic_view (d : Decoded2DDoc.t) : TypedView :=
  TV_GenericDoc (GenericDoc.mk
    (Header.doc_type (Decoded2DDoc.header d))
    (Header.perimeter (Decoded2DDoc.header d))
    (Header.country (Decoded2DDoc.header d))
    (Decoded2DDoc.fields d)).

(** A field that is missing or empty. *)
Definition blank (f : gmap str str) (k : string) : Prop :=
  f !! py k = None \/ f !! py k = Some [].

(** ** Sample data

    A document of type 07 as the decode of a 2D-DOC message gives it, and
    collaborators to run the pipeline on it. *)

(** [s.encode()] for a string of the ASCII range. *)
Definition encode_ascii (s : str) : bytes := omap Byte.of_N s.

Definition GS : str := [0x1D].
Definition US : str := [0x1F].

Definition sample_header : Header.t :=
  Header.mk (py "DC04FR0000011E8A1E8A0701FR") (py "DC") 4 (py "FR00")
    (py "0001") (Some (mk_date 2021 5 28)) (Some (mk_date 2021 5 28))
    (py "07") (py "01") (py "FR") 26.

Definition sample_b32 : str := repeat 0x41 103.

Definition sample_signature : SignatureBlock.t :=
  SignatureBlock.mk true (Some sample_b32) (Some (repeat x00 64))
    (Some (py "P-256")).

(** The scenario of the specification: fields 60, 67 and 68 only. *)
Definition scenario_payload : str :=
  Header.raw sample_header
  ++ py "60DUPONT" ++ GS ++ py "67FRA" ++ GS ++ py "68M".

Definition scenario_input : str := scenario_payload ++ US ++ sample_b32.

Definition scenario_fields : gmap str str :=
  <[py "60" := py "DUPONT"]> (<[py "67" := py "FRA"]> (<[py "68" := py "M"]> ∅)).

Definition scenario_doc : Decoded2DDoc.t :=
  Decoded2DDoc.mk sample_header (encode_ascii scenario_payload)
    scenario_fields Decoded2DDoc.default_typed sample_signature
    Decoded2DDoc.default_is_valid Decoded2DDoc.default_ants_type.

(** The same card with its family name (62) and country of birth (6C). *)
Definition card_payload : str :=
  scenario_payload ++ GS ++ py "62DUPONT" ++ GS ++ py "6CFR".

Definition card_input : str := card_payload ++ US ++ sample_b32.

Definition card_fields : gmap str str :=
  <[py "62" := py "DUPONT"]> (<[py "6C" := py "FR"]> scenario_fields).

Definition card_doc : Decoded2DDoc.t :=
  Decoded2DDoc.mk sample_header (encode_ascii card_payload)
    card_fields Decoded2DDoc.default_typed sample_signature
    Decoded2DDoc.default_is_valid Decoded2DDoc.default_ants_type.

(** A card without its field 68. *)
Definition nogenre_doc : Decoded2DDoc.t :=
  Decoded2DDoc.mk sample_header (encode_ascii card_payload)
    (delete (py "68") card_fields) Decoded2DDoc.default_typed sample_signature
    Decoded2DDoc.default_is_valid Decoded2DDoc.default_ants_type.

(** A document of a type no module handles, and an unsigned one. *)
Definition other_header : Header.t :=
  Header.store Header.f_doc_type sample_header (py "99").

Definition other_doc : Decoded2DDoc.t :=
  Decoded2DDoc.mk other_header (encode_ascii card_payload)
    card_fields Decoded2DDoc.default_typed sample_signature
    Decoded2DDoc.default_is_valid Decoded2DDoc.default_ants_type.

Definition unsigned_doc : Decoded2DDoc.t :=
  Decoded2DDoc.mk sample_header (encode_ascii card_payload)
    card_fields Decoded2DDoc.default_typed Decoded2DDoc.default_signature
    Decoded2DDoc.default_is_valid Decoded2DDoc.default_ants_type.

(** Converters that find nothing to convert, and pydantic 1. *)
Definition sample_imports : imports :=
  mk_imports (fun _ => Ok None) (fun _ => Ok None) (fun _ => Ok None) true.

(** A parser known by its results on a finite table of messages. *)
Definition parse_table (table : list (str * Decoded2DDoc.t)) (data : str)
  : res Decoded2DDoc.t :=
  match list_find (fun entry => entry.1 = data) table with
  | Some (_, (_, d)) => Ok d
  | None => Raise (ForeignException "MalformedHeader" (py "bad marker"))
  end.

Definition sample_parse : str -> res Decoded2DDoc.t :=
  parse_table [(scenario_input, scenario_doc); (card_input, card_doc);
               (py "nogenre", nogenre_doc); (py "other", other_doc);
               (py "unsigned", unsigned_doc)].

(** Key resolvers and signature checks with a fixed answer. *)
Definition resolver_without_key : KeyResolver := fun _ _ =>
  Raise (ForeignException "KeyNotFound" (py "no key for this certificate")).

Definition resolver_with_key : KeyResolver := fun _ _ => Ok (repeat x01 64).

Definition check_accepts : bytes -> bytes -> PublicKey -> res bool :=
  fun _ _ _ => Ok true.

Definition check_rejects : bytes -> bytes -> PublicKey -> res bool :=
  fun _ _ _ => Ok false.

Definition check_unsupported : bytes -> bytes -> PublicKey -> res bool :=
  fun _ _ _ =>
    Raise (ForeignException "UnsupportedAlgorithm" (py "signature length")).

(** An installation whose package holds [base] and [doc07] only. *)
Definition doc07_only_env (resolver : KeyResolver)
    (check : bytes -> bytes -> PublicKey -> res bool) : Env :=
  mk_Env sample_parse resolver check
         [base_module; doc07_module sample_imports].

(** What the handler of type 07 makes of the card, and the card as
    dispatch leaves it. *)
Definition card_view : CarteIdentite.t :=
  CarteIdentite.mk (py "07") (py "DUPONT") None (Some (py "DUPONT")) None
    [] [] (py "FRA") (py "M") None None (py "FR") None None None
    (AdresseIdentite.mk None None None None None None None) ∅.

Definition card_dispatched : Decoded2DDoc.t :=
  Decoded2DDoc.set_ants_type (Some (py "carte_identite"))
    (Decoded2DDoc.set_typed (Some (TV_CarteIdentite card_view)) card_doc).

(** ** More sample data *)

(** A signature block marked present whose bytes are empty. *)
Definition empty_raw_doc : Decoded2DDoc.t :=
  Decoded2DDoc.mk sample_header (encode_ascii card_payload) card_fields
    Decoded2DDoc.default_typed
    (SignatureBlock.mk true (Some []) (Some []) None)
    Decoded2DDoc.default_is_valid Decoded2DDoc.default_ants_type.

(** A card whose field 60 holds two spaces. *)
Definition spaces_doc : Decoded2DDoc.t :=
  Decoded2DDoc.mk sample_header (encode_ascii card_payload)
    (<[py "60" := py "  "]> card_fields) Decoded2DDoc.default_typed
    sample_signature Decoded2DDoc.default_is_valid
    Decoded2DDoc.default_ants_type.

(** Converters for strings of decimal digits: the number they spell, and
    the date spelled day, month, year. *)
Definition digits_value (s : str) : Z :=
  fold_left (fun acc c => (10 * acc + (Z.of_N c - 48))%Z) s 0%Z.

Definition digits_imports : imports :=
  mk_imports
    (fun o => Ok ((fun s => mk_date (digits_value (drop 4 s))
                                    (digits_value (take 2 (drop 2 s)))
                                    (digits_value (take 2 s))) <$> o))
    (fun o => Ok (digits_value <$> o))
    (fun o => Ok ((fun s => mk_Decimal false (Z.to_N (digits_value s)) 0) <$> o))
    true.

(** A tax notice with its full address in 4Y, and the same notice with
    neither 4Y nor a postal code. *)
Definition avis_header : Header.t :=
  Header.store Header.f_doc_type sample_header (py "28").

Definition avis_fields : gmap str str :=
  <[py "43" := py "2"]> (<[py "44" := py "2312345678901"]>
  (<[py "45" := py "2023"]> (<[py "46" := py "DUPONT JEAN"]>
  (<[py "4A" := py "31072024"]> (<[py "4Y" := py "1 RUE DE PARIS 75001 PARIS"]>
  (<[py "ZZ" := py "extra"]> ∅)))))).

Definition avis_doc : Decoded2DDoc.t :=
  Decoded2DDoc.mk avis_header (encode_ascii card_payload) avis_fields
    Decoded2DDoc.default_typed sample_signature
    Decoded2DDoc.default_is_valid Decoded2DDoc.default_ants_type.

Definition avis_noaddress_doc : Decoded2DDoc.t :=
  Decoded2DDoc.mk avis_header (encode_ascii card_payload)
    (<[py "6U" := py "1 RUE DE PARIS"]> (delete (py "4Y") avis_fields))
    Decoded2DDoc.default_typed sample_signature
    Decoded2DDoc.default_is_valid Decoded2DDoc.default_ants_type.

Definition avis_year0_doc : Decoded2DDoc.t :=
  Decoded2DDoc.mk avis_header (encode_ascii card_payload)
    (<[py "45" := py "0000"]> avis_fields)
    Decoded2DDoc.default_typed sample_signature
    Decoded2DDoc.default_is_valid Decoded2DDoc.default_ants_type.

(** The globals of the installation with [base] and [doc07] once its
    handlers are loaded. *)
Definition loaded_world : world :=
  snd (_ensure_handlers_loaded
         (doc07_only_env resolver_with_key check_accepts) initial_world).

(** * Properties *)

(** A run is the pair of its outcome and of the state it leaves. *)
Lemma run_from_outcome {S A} (p : res A * S) (r : res A) :
  fst p = r -> p = (r, snd p).
Proof. intros <-. destruct p; reflexivity. Qed.

(** ** Python strings *)

Example py_ascii : py "07" = [0x30; 0x37].
Proof. reflexivity. Qed.

Example py_accent : py "présente" = [0x70; 0x72; 0xE9; 0x73; 0x65; 0x6E; 0x74; 0x65].
Proof. reflexivity. Qed.

Example strip_spaces : strip (py "  DUPONT ") = py "DUPONT".
Proof. reflexivity. Qed.

Example upper_type_code : upper (py "0a") = py "0A".
Proof. reflexivity. Qed.

Example lower_type_code : lower (py "0A") = py "0a".
Proof. reflexivity. Qed.

Example lower_beyond_ascii :
  lower (py "É1") = py "é1" /\ lower [0x212A; 0x37] = py "k7"
  /\ lower [0x130] = [0x69; 0x307]
  /\ lower (py "ΟΔΟΣ ΣΟΣ") = py "οδος σος".
Proof. repeat split; vm_compute; reflexivity. Qed.

Example upper_beyond_ascii :
  upper (py "é1") = py "É1" /\ upper (py "ı7") = py "I7"
  /\ upper (py "ß") = py "SS" /\ upper [0x212A] = [0x212A].
Proof. repeat split; vm_compute; reflexivity. Qed.

(** ** Case mapping *)















(** ** The registry *)

Lemma TypeRegistry_get_register (r : TypeRegistry.t) (c c' name : str)
    (h : TypeHandler) :
  upper c' = upper c ->
  TypeRegistry.get (TypeRegistry.register r c h name) c' = Some (h, name).
Proof.
  intros Heq. unfold TypeRegistry.get, TypeRegistry.register.
  rewrite Heq. apply lookup_insert_eq.
Qed.

Lemma TypeRegistry_get_register_ne (r : TypeRegistry.t) (c c' name : str)
    (h : TypeHandler) :
  upper c' <> upper c ->
  TypeRegistry.get (TypeRegistry.register r c h name) c' = TypeRegistry.get r c'.
Proof.
  intros Hne. unfold TypeRegistry.get, TypeRegistry.register.
  apply lookup_insert_ne. congruence.
Qed.

Lemma register_run (c name : str) (h : TypeHandler) (w : world) :
  register c name h w
  = (Ok h, set_registry (TypeRegistry.register (_registry w) c h name) w).
Proof. reflexivity. Qed.

Lemma get_handler_run (c : str) (w : world) :
  get_handler c w = (Ok (TypeRegistry.get (_registry w) c), w).
Proof. reflexivity. Qed.




(** ** Decoded2DDoc.verify *)

Section verify_facts.

Variable check : bytes -> bytes -> PublicKey -> res bool.
Variable resolver : KeyResolver.

(** What [verify] does, case by case. *)
Lemma verify_run (d : Decoded2DDoc.t) :
  Decoded2DDoc.verify check resolver d =
  if negb (SignatureBlock.present (Decoded2DDoc.signature d))
     || negb (truthy_opt truthy (SignatureBlock.raw (Decoded2DDoc.signature d)))
  then (Raise (ValueError (py "Pas de signature présente dans ce 2D-DOC.")), d)
  else
    match resolver (Header.ca_id (Decoded2DDoc.header d))
                   (Header.cert_id (Decoded2DDoc.header d)) with
    | Raise e => (Raise e, d)
    | Ok pub =>
      match check (Decoded2DDoc.sign_payload d)
              (default [] (SignatureBlock.raw (Decoded2DDoc.signature d))) pub with
      | Raise e => (Raise e, d)
      | Ok valid => (Ok tt, Decoded2DDoc.set_is_valid valid d)
      end
    end.
Proof.
  unfold Decoded2DDoc.verify, mbind, St_bind, get_state, lift, modify.
  destruct (negb _ || negb _); [reflexivity|].
  destruct (resolver _ _); [|reflexivity].
  destruct (check _ _ _); reflexivity.
Qed.

(** A raise of [verify] leaves the document as it was. *)
Lemma verify_raise_unchanged (d d' : Decoded2DDoc.t) (e : exn) :
  Decoded2DDoc.verify check resolver d = (Raise e, d') -> d' = d.
Proof.
  rewrite verify_run.
  destruct (negb _ || negb _); [congruence|].
  destruct (resolver _ _); [|congruence].
  destruct (check _ _ _); congruence.
Qed.

(** [verify] writes [is_valid] and nothing else. *)
Lemma verify_frame (d d' : Decoded2DDoc.t) (r : res unit) :
  Decoded2DDoc.verify check resolver d = (r, d') ->
  Decoded2DDoc.header d' = Decoded2DDoc.header d
  /\ Decoded2DDoc.sign_payload d' = Decoded2DDoc.sign_payload d
  /\ Decoded2DDoc.fields d' = Decoded2DDoc.fields d
  /\ Decoded2DDoc.signature d' = Decoded2DDoc.signature d
  /\ Decoded2DDoc.typed d' = Decoded2DDoc.typed d
  /\ Decoded2DDoc.ants_type d' = Decoded2DDoc.ants_type d.
Proof.
  rewrite verify_run.
  destruct (negb _ || negb _);
    [intros [= <- <-]; repeat split|].
  destruct (resolver _ _); [|intros [= <- <-]; repeat split].
  destruct (check _ _ _); intros [= <- <-]; repeat split.
Qed.

End verify_facts.

(** C7. On a document whose signature block is not present, [verify]
    raises to its caller, whatever the key resolver and the signature
    check are: neither is consulted, and the document, its validity
    included, is left as it was. *)
Theorem verify_without_signature_raises
    (check : bytes -> bytes -> PublicKey -> res bool) (resolver : KeyResolver)
    (d : Decoded2DDoc.t) :
  SignatureBlock.present (Decoded2DDoc.signature d) = false ->
  Decoded2DDoc.verify check resolver d
  = (Raise (ValueError (py "Pas de signature présente dans ce 2D-DOC.")), d).
Proof. intros Hp. rewrite verify_run, Hp. reflexivity. Qed.

Lemma verify_without_signature_raises_witness :
  SignatureBlock.present (Decoded2DDoc.signature unsigned_doc) = false
  /\ Decoded2DDoc.verify check_rejects resolver_with_key unsigned_doc
     = (Raise (ValueError (py "Pas de signature présente dans ce 2D-DOC.")),
        unsigned_doc).
Proof.
  split; [reflexivity|].
  apply (verify_without_signature_raises check_rejects resolver_with_key
           unsigned_doc).
  reflexivity.
Defined.

(** C10. On a document with a present signature and a key that resolves,
    [verify] returns as soon as the signature check does, with [is_valid]
    set to the answer of the check; and whatever the outcome, the header,
    the signed payload, the fields, the signature block, the typed view and
    [ants_type] are the ones of before the call. *)
Theorem verify_writes_only_is_valid
    (check : bytes -> bytes -> PublicKey -> res bool) (resolver : KeyResolver)
    (d : Decoded2DDoc.t) (sig : bytes) (pub : PublicKey) :
  SignatureBlock.present (Decoded2DDoc.signature d) = true ->
  SignatureBlock.raw (Decoded2DDoc.signature d) = Some sig ->
  truthy sig = true ->
  resolver (Header.ca_id (Decoded2DDoc.header d))
           (Header.cert_id (Decoded2DDoc.header d)) = Ok pub ->
  (forall valid, check (Decoded2DDoc.sign_payload d) sig pub = Ok valid ->
     Decoded2DDoc.verify check resolver d
     = (Ok tt, Decoded2DDoc.set_is_valid valid d))
  /\ (forall r d', Decoded2DDoc.verify check resolver d = (r, d') ->
        Decoded2DDoc.header d' = Decoded2DDoc.header d
        /\ Decoded2DDoc.sign_payload d' = Decoded2DDoc.sign_payload d
        /\ Decoded2DDoc.fields d' = Decoded2DDoc.fields d
        /\ Decoded2DDoc.signature d' = Decoded2DDoc.signature d
        /\ Decoded2DDoc.typed d' = Decoded2DDoc.typed d
        /\ Decoded2DDoc.ants_type d' = Decoded2DDoc.ants_type d).
Proof.
  intros Hp Hraw Hsig Hkey. split.
  - intros valid Hcheck. rewrite verify_run, Hp, Hraw, Hkey. simpl.
    rewrite Hsig, Hcheck. reflexivity.
  - intros r d'. apply verify_frame.
Qed.

Lemma verify_writes_only_is_valid_witness :
  SignatureBlock.present (Decoded2DDoc.signature card_doc) = true
  /\ SignatureBlock.raw (Decoded2DDoc.signature card_doc)
     = Some (repeat x00 64)
  /\ resolver_with_key (Header.ca_id (Decoded2DDoc.header card_doc))
                       (Header.cert_id (Decoded2DDoc.header card_doc))
     = Ok (repeat x01 64)
  /\ Decoded2DDoc.verify check_accepts resolver_with_key card_doc
     = (Ok tt, Decoded2DDoc.set_is_valid true card_doc).
Proof.
  split; [reflexivity|]. split; [reflexivity|]. split; [reflexivity|].
  apply (verify_writes_only_is_valid check_accepts resolver_with_key card_doc
           (repeat x00 64) (repeat x01 64));
    reflexivity.
Defined.

(** ** The stages of decode_2d_doc *)

Lemma dispatch_run (d : Decoded2DDoc.t) (w : world) :
  dispatch d w =
  (match TypeRegistry.get (_registry w)
           (Header.doc_type (Decoded2DDoc.header d)) with
   | Some (h, name) =>
     match h d with
     | Ok typed =>
       Ok (Decoded2DDoc.set_ants_type (Some name)
             (Decoded2DDoc.set_typed (Some typed) d))
     | Raise e => Raise e
     end
   | None => Ok (Decoded2DDoc.set_typed (Some (generic_view d)) d)
   end, w).
Proof.
  unfold dispatch, mbind, St_bind. rewrite get_handler_run.
  destruct (TypeRegistry.get _ _) as [[h name]|]; simpl; [|reflexivity].
  unfold lift. destruct (h d); reflexivity.
Qed.

Lemma attempt_verify_run (E : Env) (d : Decoded2DDoc.t) (w : world) :
  attempt_verify E d w =
  match Decoded2DDoc.verify (verify_signature E) (local_key_resolver E) d with
  | (Ok _, d') => (Ok d', w)
  | (Raise e, d') =>
    if is_Exception e then (Ok d', snd (print (py "Warning: signature verification failed: " ++ exn_str e) w)) else (Raise e, w)
  end.
Proof.
  unfold attempt_verify, mbind, St_bind, call_method.
  destruct (Decoded2DDoc.verify _ _ d) as [[u|e] d']; simpl; [reflexivity|].
  destruct (is_Exception e); reflexivity.
Qed.

Lemma decode_2d_doc_run (E : Env) (data : str) (w : world) :
  decode_2d_doc E data w =
  match parse E data with
  | Raise e => (Raise e, w)
  | Ok doc =>
    match _ensure_handlers_loaded E w with
    | (Raise e, w1) => (Raise e, w1)
    | (Ok _, w1) =>
      match dispatch doc w1 with
      | (Raise e, w2) => (Raise e, w2)
      | (Ok d1, w2) => attempt_verify E d1 w2
      end
    end
  end.
Proof.
  unfold decode_2d_doc, mbind, St_bind, lift.
  destruct (parse E data) as [doc|e]; [|reflexivity].
  destruct (_ensure_handlers_loaded E w) as [[u|e] w1]; [|reflexivity].
  destruct (dispatch doc w1) as [[d1|e] w2]; [|reflexivity].
  destruct (attempt_verify E d1 w2) as [[d2|e] w3]; reflexivity.
Qed.

(** Dispatch leaves the globals as they are, whatever its outcome. *)
Lemma dispatch_world (d : Decoded2DDoc.t) (w : world) :
  snd (dispatch d w) = w.
Proof.
  rewrite dispatch_run.
  destruct (TypeRegistry.get _ _) as [[h name]|]; [|reflexivity].
  destruct (h d); reflexivity.
Qed.

(** Dispatch and the verification attempt leave what [parse] decoded. *)
Lemma dispatch_frame (d d' : Decoded2DDoc.t) (w w' : world) :
  dispatch d w = (Ok d', w') ->
  w' = w
  /\ Decoded2DDoc.header d' = Decoded2DDoc.header d
  /\ Decoded2DDoc.sign_payload d' = Decoded2DDoc.sign_payload d
  /\ Decoded2DDoc.fields d' = Decoded2DDoc.fields d
  /\ Decoded2DDoc.signature d' = Decoded2DDoc.signature d
  /\ Decoded2DDoc.is_valid d' = Decoded2DDoc.is_valid d
  /\ is_Some (Decoded2DDoc.typed d').
Proof.
  rewrite dispatch_run.
  destruct (TypeRegistry.get _ _) as [[h name]|].
  - destruct (h d); intros [= <- <-]; repeat split; eauto.
  - intros [= <- <-]; repeat split; eauto.
Qed.

Lemma attempt_verify_frame (E : Env) (d d' : Decoded2DDoc.t) (w w' : world) :
  attempt_verify E d w = (Ok d', w') ->
  Decoded2DDoc.header d' = Decoded2DDoc.header d
  /\ Decoded2DDoc.sign_payload d' = Decoded2DDoc.sign_payload d
  /\ Decoded2DDoc.fields d' = Decoded2DDoc.fields d
  /\ Decoded2DDoc.signature d' = Decoded2DDoc.signature d
  /\ Decoded2DDoc.typed d' = Decoded2DDoc.typed d
  /\ Decoded2DDoc.ants_type d' = Decoded2DDoc.ants_type d.
Proof.
  rewrite attempt_verify_run.
  destruct (Decoded2DDoc.verify _ _ d) as [[u|e] d1] eqn:Hv.
  - intros [= <- <-]. eapply verify_frame, Hv.
  - destruct (is_Exception e); intros [= <- <-]. eapply verify_frame, Hv.
Qed.

(** The verification attempt returns, unless what [verify] raised is not
    an [Exception]. *)
Lemma attempt_verify_outcome (E : Env) (d : Decoded2DDoc.t) (w : world) :
  (exists d' w', attempt_verify E d w = (Ok d', w'))
  \/ (exists e, attempt_verify E d w = (Raise e, w)
               /\ is_Exception e = false
               /\ fst (Decoded2DDoc.verify (verify_signature E)
                         (local_key_resolver E) d) = Raise e).
Proof.
  rewrite attempt_verify_run.
  destruct (Decoded2DDoc.verify _ _ d) as [[u|e] d1]; [eauto|].
  destruct (is_Exception e) eqn:He; eauto.
Qed.

(** C5. When no handler is registered for the type of the decoded
    document, dispatch does not fail: it sets the typed view to the
    generic view made of the type, the perimeter and the country of the
    header and of the whole field map; this is the typed view of the
    aggregate decode returns. *)
Theorem dispatch_miss_builds_generic_view
    (E : Env) (data : str) (w w1 : world) (doc : Decoded2DDoc.t) :
  parse E data = Ok doc ->
  _ensure_handlers_loaded E w = (Ok tt, w1) ->
  fst (get_handler (Header.doc_type (Decoded2DDoc.header doc)) w1) = Ok None ->
  let view :=
    TV_GenericDoc (GenericDoc.mk
      (Header.doc_type (Decoded2DDoc.header doc))
      (Header.perimeter (Decoded2DDoc.header doc))
      (Header.country (Decoded2DDoc.header doc))
      (Decoded2DDoc.fields doc)) in
  dispatch doc w1 = (Ok (Decoded2DDoc.set_typed (Some view) doc), w1)
  /\ ((exists d w', decode_2d_doc E data w = (Ok d, w')
                   /\ Decoded2DDoc.typed d = Some view
                   /\ Decoded2DDoc.ants_type d = Decoded2DDoc.ants_type doc)
      \/ (exists e, decode_2d_doc E data w = (Raise e, w1)
                   /\ is_Exception e = false)).
Proof.
  intros Hparse Hload Hmiss view.
  rewrite get_handler_run in Hmiss. cbn [fst] in Hmiss.
  injection Hmiss as Hmiss.
  assert (Hd : dispatch doc w1
               = (Ok (Decoded2DDoc.set_typed (Some view) doc), w1)).
  { rewrite dispatch_run, Hmiss. reflexivity. }
  split; [exact Hd|].
  rewrite decode_2d_doc_run, Hparse, Hload, Hd.
  destruct (attempt_verify_outcome E
              (Decoded2DDoc.set_typed (Some view) doc) w1)
    as [(d & w' & Hv)|(e & Hv & He & _)].
  - left. exists d, w'. split; [exact Hv|].
    apply attempt_verify_frame in Hv as (_ & _ & _ & _ & Ht & Ha).
    rewrite Ht, Ha. split; reflexivity.
  - right. exists e. split; assumption.
Qed.

Lemma dispatch_miss_builds_generic_view_witness :
  let E := doc07_only_env resolver_without_key check_accepts in
  parse E (py "other") = Ok other_doc
  /\ dispatch other_doc (snd (_ensure_handlers_loaded E initial_world))
     = (Ok (Decoded2DDoc.set_typed
              (Some (TV_GenericDoc
                 (GenericDoc.mk (py "99") (py "01") (py "FR") card_fields)))
              other_doc),
        snd (_ensure_handlers_loaded E initial_world)).
Proof.
  split; [reflexivity|].
  apply (dispatch_miss_builds_generic_view
           (doc07_only_env resolver_without_key check_accepts)
           (py "other") initial_world
           (snd (_ensure_handlers_loaded
                   (doc07_only_env resolver_without_key check_accepts)
                   initial_world))
           other_doc);
    reflexivity.
Defined.

(** ** The handler of type 07 *)

Lemma blank_strip (f : gmap str str) (k : string) :
  blank f k -> strip (default [] (f !! py k)) = [].
Proof. intros [-> | ->]; reflexivity. Qed.

Lemma CarteIdentite_init_ok (X : imports) dt lp pr np nu tp nd na ge dn ln pn
    mr dd df ad ex (obj : CarteIdentite.t) :
  CarteIdentite_init X dt lp pr np nu tp nd na ge dn ln pn mr dd df ad ex
    = Ok obj ->
  CarteIdentite.liste_prenoms obj = lp
  /\ CarteIdentite.nationalite obj = na
  /\ CarteIdentite.genre obj = ge
  /\ dt = py "07"
  /\ pn = Some (CarteIdentite.pays_naissance obj).
Proof.
  unfold CarteIdentite_init.
  case_bool_decide as Hdt; [|discriminate].
  destruct (pydantic_implicit_optional X || _); [|discriminate].
  destruct pn as [pays|]; [|discriminate].
  simpl. intros [= <-]. repeat split. exact Hdt.
Qed.

Lemma CarteIdentite_init_raise (X : imports) dt lp pr np nu tp nd na ge dn ln
    pn mr dd df ad ex (e : exn) :
  CarteIdentite_init X dt lp pr np nu tp nd na ge dn ln pn mr dd df ad ex
    = Raise e ->
  is_ValueError e = true.
Proof.
  unfold CarteIdentite_init.
  destruct (_ ++ _); [destruct pn|]; intros [= <-]; reflexivity.
Qed.

Lemma CarteIdentite_validate_blank (obj : CarteIdentite.t) :
  CarteIdentite.liste_prenoms obj = [] \/ CarteIdentite.nationalite obj = []
  \/ CarteIdentite.genre obj = [] ->
  exists msg, CarteIdentite_validate obj = Raise (ValueError msg).
Proof.
  unfold CarteIdentite_validate.
  destruct (CarteIdentite.liste_prenoms obj); simpl; [eauto|].
  destruct (CarteIdentite.nationalite obj); simpl; [eauto|].
  destruct (CarteIdentite.genre obj); simpl; [eauto|].
  intros [H|[H|H]]; discriminate.
Qed.

(** With field 60, 67 or 68 missing or empty, the handler of type 07
    raises; the exception is a [ValueError] unless a date converter raised
    first. *)
Lemma _handle_07_blank (X : imports) (d : Decoded2DDoc.t) :
  blank (Decoded2DDoc.fields d) "60" \/ blank (Decoded2DDoc.fields d) "67"
  \/ blank (Decoded2DDoc.fields d) "68" ->
  exists e, _handle_07 X d = Raise e
            /\ ((forall o, exists v, to_date_ddmmyyyy X o = Ok v) ->
                is_ValueError e = true).
Proof.
  intros Hblank.
  unfold _handle_07, CarteIdentite_from_decoded, fmap, res_fmap, mbind, res_bind.
  destruct (to_date_ddmmyyyy X (_ !! py "69")) as [dn|e] eqn:H69.
  2:{ exists e. split; [reflexivity|]. intros Hd.
      destruct (Hd (Decoded2DDoc.fields d !! py "69")) as [v Hv]. congruence. }
  destruct (to_date_ddmmyyyy X (_ !! py "6N")) as [dd|e] eqn:H6N.
  2:{ exists e. split; [reflexivity|]. intros Hd.
      destruct (Hd (Decoded2DDoc.fields d !! py "6N")) as [v Hv]. congruence. }
  destruct (to_date_ddmmyyyy X (_ !! py "6O")) as [df|e] eqn:H6O.
  2:{ exists e. split; [reflexivity|]. intros Hd.
      destruct (Hd (Decoded2DDoc.fields d !! py "6O")) as [v Hv]. congruence. }
  destruct (CarteIdentite_init _ _ _ _ _ _ _ _ _ _ _ _ _ _ _ _ _ _)
    as [obj|e] eqn:Hinit.
  2:{ exists e. split; [reflexivity|]. intros _.
      eapply CarteIdentite_init_raise, Hinit. }
  apply CarteIdentite_init_ok in Hinit as (Hlp & Hna & Hge & _).
  destruct (CarteIdentite_validate_blank obj) as [msg Hmsg].
  { rewrite Hlp, Hna, Hge.
    destruct Hblank as [H|[H|H]]; apply blank_strip in H; auto. }
  rewrite Hmsg. exists (ValueError msg). split; reflexivity.
Qed.

(** C6. When the type of the decoded document has a registered handler and
    the handler raises, decode raises the same exception and returns no
    aggregate; the handler of type 07 raises as soon as field 60, 67 or 68
    is missing or empty. *)
Theorem handler_failure_aborts_decode
    (E : Env) (data : str) (w w1 : world) (doc : Decoded2DDoc.t)
    (h : TypeHandler) (name : str) :
  parse E data = Ok doc ->
  _ensure_handlers_loaded E w = (Ok tt, w1) ->
  fst (get_handler (Header.doc_type (Decoded2DDoc.header doc)) w1)
    = Ok (Some (h, name)) ->
  (forall e, h doc = Raise e -> decode_2d_doc E data w = (Raise e, w1))
  /\ (forall X, h = _handle_07 X ->
        blank (Decoded2DDoc.fields doc) "60"
        \/ blank (Decoded2DDoc.fields doc) "67"
        \/ blank (Decoded2DDoc.fields doc) "68" ->
        exists e, h doc = Raise e
                  /\ decode_2d_doc E data w = (Raise e, w1)
                  /\ ((forall o, exists v, to_date_ddmmyyyy X o = Ok v) ->
                      is_ValueError e = true)).
Proof.
  intros Hparse Hload Hhit.
  rewrite get_handler_run in Hhit. cbn [fst] in Hhit. injection Hhit as Hhit.
  assert (Habort : forall e, h doc = Raise e ->
                             decode_2d_doc E data w = (Raise e, w1)).
  { intros e He.
    rewrite decode_2d_doc_run, Hparse, Hload, dispatch_run, Hhit, He.
    reflexivity. }
  split; [exact Habort|].
  intros X -> Hblank.
  destruct (_handle_07_blank X doc Hblank) as (e & He & Hkind).
  exists e. auto.
Qed.

Lemma handler_failure_aborts_decode_witness :
  let E := doc07_only_env resolver_with_key check_accepts in
  parse E (py "nogenre") = Ok nogenre_doc
  /\ blank (Decoded2DDoc.fields nogenre_doc) "68"
  /\ exists e, fst (decode_2d_doc E (py "nogenre") initial_world) = Raise e.
Proof.
  split; [reflexivity|]. split; [left; reflexivity|].
  destruct (handler_failure_aborts_decode
              (doc07_only_env resolver_with_key check_accepts)
              (py "nogenre") initial_world
              (snd (_ensure_handlers_loaded
                      (doc07_only_env resolver_with_key check_accepts)
                      initial_world))
              nogenre_doc (_handle_07 sample_imports) (py "carte_identite")
              eq_refl eq_refl eq_refl) as [_ H07].
  destruct (H07 sample_imports eq_refl) as (e & _ & He & _).
  - right; right; left; reflexivity.
  - exists e. rewrite He. reflexivity.
Defined.

(** C2. When parsing and the construction of the typed view succeed, decode
    returns the aggregate whatever the verification step does, be it a
    failed key resolution, an unsupported algorithm or a mismatch, as long
    as what it raises is an [Exception]: the aggregate has the header, the
    payload, the fields and the signature block of the parse and the typed
    view of the dispatch. *)
Theorem verification_failure_does_not_abort
    (E : Env) (data : str) (w w1 : world) (doc d1 : Decoded2DDoc.t) :
  parse E data = Ok doc ->
  _ensure_handlers_loaded E w = (Ok tt, w1) ->
  dispatch doc w1 = (Ok d1, w1) ->
  (forall e, fst (Decoded2DDoc.verify (verify_signature E)
                    (local_key_resolver E) d1) = Raise e ->
             is_Exception e = true) ->
  exists d w',
    decode_2d_doc E data w = (Ok d, w')
    /\ Decoded2DDoc.header d = Decoded2DDoc.header doc
    /\ Decoded2DDoc.sign_payload d = Decoded2DDoc.sign_payload doc
    /\ Decoded2DDoc.fields d = Decoded2DDoc.fields doc
    /\ Decoded2DDoc.signature d = Decoded2DDoc.signature doc
    /\ Decoded2DDoc.typed d = Decoded2DDoc.typed d1
    /\ is_Some (Decoded2DDoc.typed d)
    /\ Decoded2DDoc.ants_type d = Decoded2DDoc.ants_type d1.
Proof.
  intros Hparse Hload Hdispatch Hexc.
  rewrite decode_2d_doc_run, Hparse, Hload, Hdispatch.
  apply dispatch_frame in Hdispatch as (_ & Hh & Hp & Hf & Hs & _ & Ht).
  destruct (attempt_verify_outcome E d1 w1)
    as [(d & w' & Hv)|(e & _ & He & Hraise)].
  - exists d, w'. split; [exact Hv|].
    apply attempt_verify_frame in Hv as (Hh' & Hp' & Hf' & Hs' & Ht' & Ha').
    rewrite Hh', Hp', Hf', Hs', Ht', Ha'. repeat split; assumption.
  - apply Hexc in Hraise. congruence.
Qed.

Example _handle_07_card :
  _handle_07 sample_imports card_doc = Ok (TV_CarteIdentite card_view).
Proof. vm_compute. reflexivity. Qed.

Lemma verification_failure_does_not_abort_witness :
  let E := doc07_only_env resolver_without_key check_accepts in
  parse E card_input = Ok card_doc
  /\ fst (Decoded2DDoc.verify (verify_signature E) (local_key_resolver E)
            card_dispatched)
     = Raise (ForeignException "KeyNotFound" (py "no key for this certificate"))
  /\ exists d w', decode_2d_doc E card_input initial_world = (Ok d, w')
                  /\ Decoded2DDoc.fields d = card_fields
                  /\ Decoded2DDoc.typed d = Some (TV_CarteIdentite card_view).
Proof.
  split; [reflexivity|]. split; [reflexivity|].
  destruct (verification_failure_does_not_abort
              (doc07_only_env resolver_without_key check_accepts)
              card_input initial_world
              (snd (_ensure_handlers_loaded
                      (doc07_only_env resolver_without_key check_accepts)
                      initial_world))
              card_doc card_dispatched eq_refl eq_refl)
    as (d & w' & Hd & _ & _ & Hf & _ & Ht & _).
  - rewrite dispatch_run. reflexivity.
  - intros e He. vm_compute in He. injection He as <-. reflexivity.
  - exists d, w'. repeat split; assumption.
Defined.

(** C1, amended. When parsing and dispatch succeed and [verify] raises an
    [Exception] (a key that does not resolve, an unsupported algorithm, no
    signature), decode returns the aggregate as dispatch left it: the
    boolean [is_valid] keeps the value the parse gave it, and the reason
    goes to the standard output as a warning line and nowhere else. *)
Theorem unverifiable_signature_leaves_is_valid
    (E : Env) (data : str) (w w1 : world) (doc d1 : Decoded2DDoc.t) (e : exn) :
  parse E data = Ok doc ->
  _ensure_handlers_loaded E w = (Ok tt, w1) ->
  dispatch doc w1 = (Ok d1, w1) ->
  fst (Decoded2DDoc.verify (verify_signature E) (local_key_resolver E) d1)
    = Raise e ->
  is_Exception e = true ->
  decode_2d_doc E data w
  = (Ok d1,
     snd (print (py "Warning: signature verification failed: " ++ exn_str e)
                w1))
  /\ Decoded2DDoc.is_valid d1 = Decoded2DDoc.is_valid doc.
Proof.
  intros Hparse Hload Hdispatch Hraise Hexc.
  rewrite decode_2d_doc_run, Hparse, Hload, Hdispatch, attempt_verify_run.
  apply dispatch_frame in Hdispatch as (_ & _ & _ & _ & _ & Hv & _).
  destruct (Decoded2DDoc.verify _ _ d1) as [r d'] eqn:Hverify.
  cbn [fst] in Hraise. subst r.
  apply verify_raise_unchanged in Hverify as ->.
  rewrite Hexc. split; [reflexivity|exact Hv].
Qed.

Lemma unverifiable_signature_leaves_is_valid_witness :
  let E := doc07_only_env resolver_without_key check_accepts in
  parse E card_input = Ok card_doc
  /\ fst (decode_2d_doc E card_input initial_world) = Ok card_dispatched
  /\ Decoded2DDoc.is_valid card_dispatched = false
  /\ stdout (snd (decode_2d_doc E card_input initial_world))
     = [py "Warning: signature verification failed: no key for this certificate"].
Proof.
  split; [reflexivity|].
  destruct (unverifiable_signature_leaves_is_valid
              (doc07_only_env resolver_without_key check_accepts)
              card_input initial_world
              (snd (_ensure_handlers_loaded
                      (doc07_only_env resolver_without_key check_accepts)
                      initial_world))
              card_doc card_dispatched
              (ForeignException "KeyNotFound"
                 (py "no key for this certificate"))
              eq_refl eq_refl) as [Hd Hv].
  - rewrite dispatch_run. reflexivity.
  - reflexivity.
  - reflexivity.
  - rewrite Hd. split; [reflexivity|]. split; vm_compute; reflexivity.
Defined.

(** C1, as stated, fails: decode returns one and the same aggregate, with
    [is_valid] false, when the key is not found, when the algorithm is not
    supported and when the signature does not match; the aggregate tells
    neither an unverified signature from an invalid one nor the reason. *)
Lemma unverified_same_aggregate_as_invalid :
  let missing_key :=
    fst (decode_2d_doc (doc07_only_env resolver_without_key check_accepts)
                       card_input initial_world) in
  let unsupported :=
    fst (decode_2d_doc (doc07_only_env resolver_with_key check_unsupported)
                       card_input initial_world) in
  let mismatch :=
    fst (decode_2d_doc (doc07_only_env resolver_with_key check_rejects)
                       card_input initial_world) in
  missing_key = Ok card_dispatched
  /\ Decoded2DDoc.is_valid card_dispatched = false
  /\ unsupported = missing_key
  /\ mismatch = missing_key.
Proof. repeat split; vm_compute; reflexivity. Qed.

(** ** Loading the handler modules *)

Lemma import_module_known (m : pymodule) (w : world) :
  mod_name m ∈ sys_modules w -> import_module m w = (Ok tt, w).
Proof.
  intros Hin. unfold import_module, mbind, St_bind, get_state.
  rewrite bool_decide_eq_true_2 by exact Hin. reflexivity.
Qed.

Lemma import_module_fresh (m : pymodule) (w : world) :
  mod_name m ∉ sys_modules w ->
  import_module m w =
  match mod_body m w with
  | (Ok _, w') => (Ok tt, add_sys_module (mod_name m) w')
  | (Raise e, w') => (Raise e, w')
  end.
Proof.
  intros Hin. unfold import_module, mbind, St_bind, get_state.
  rewrite bool_decide_eq_false_2 by exact Hin.
  destruct (mod_body m w) as [[u|e] w']; reflexivity.
Qed.

Lemma doc28_unloaded_add (name : string) (w : world) :
  name <> doc28_name -> doc28_unloaded w ->
  doc28_unloaded (add_sys_module name w).
Proof.
  intros Hne (Hl & Hm & Hr). repeat split; [exact Hl| |exact Hr].
  simpl. rewrite elem_of_app, list_elem_of_singleton. intros [H|H]; auto.
Qed.

Lemma import_base_module (w : world) :
  doc28_unloaded w ->
  exists w', import_module base_module w = (Ok tt, w') /\ doc28_unloaded w'.
Proof.
  intros Hinv.
  destruct (decide (mod_name base_module ∈ sys_modules w)) as [Hin|Hin].
  - exists w. split; [apply import_module_known, Hin|exact Hinv].
  - rewrite import_module_fresh by exact Hin. simpl.
    eexists. split; [reflexivity|].
    apply doc28_unloaded_add; [discriminate|exact Hinv].
Qed.

Lemma import_doc07_module (X : imports) (w : world) :
  doc28_unloaded w ->
  exists w', import_module (doc07_module X) w = (Ok tt, w')
             /\ doc28_unloaded w'.
Proof.
  intros Hinv.
  destruct (decide (mod_name (doc07_module X) ∈ sys_modules w)) as [Hin|Hin].
  - exists w. split; [apply import_module_known, Hin|exact Hinv].
  - rewrite import_module_fresh by exact Hin. simpl.
    eexists. split; [reflexivity|].
    apply doc28_unloaded_add; [discriminate|].
    destruct Hinv as (Hl & Hm & Hr). repeat split; [exact Hl|exact Hm|].
    simpl. rewrite TypeRegistry_get_register_ne; [exact Hr|discriminate].
Qed.

(** Importing the module of type 28 raises at its decorator, before any
    handler is registered. *)
Lemma import_doc28_module (X : imports) (w : world) :
  doc28_name ∉ sys_modules w ->
  import_module (doc28_module X) w = (Raise missing_name_error, w).
Proof. intros Hin. rewrite import_module_fresh by exact Hin. reflexivity. Qed.

Lemma _ensure_handlers_loaded_raises (X : imports)
    (parse : str -> res Decoded2DDoc.t) (resolver : KeyResolver)
    (check : bytes -> bytes -> PublicKey -> res bool) (w : world) :
  doc28_unloaded w ->
  exists w',
    _ensure_handlers_loaded (repo_env X parse resolver check) w
    = (Raise missing_name_error, w')
    /\ doc28_unloaded w'.
Proof.
  intros Hinv.
  unfold _ensure_handlers_loaded, mbind, St_bind, get_state.
  destruct Hinv as (Hl & Hm & Hr). rewrite Hl.
  assert (Hinv : doc28_unloaded w) by (repeat split; assumption).
  simpl. unfold mbind, St_bind.
  destruct (import_base_module w Hinv) as (w1 & -> & Hinv1).
  destruct (import_doc07_module X w1 Hinv1) as (w2 & -> & Hinv2).
  rewrite import_doc28_module by apply Hinv2.
  exists w2. split; [reflexivity|exact Hinv2].
Qed.

(** In the repository every decode raises, from a state where the module
    of type 28 is not loaded, and leaves such a state. *)
Lemma decode_2d_doc_raises_in_repo (X : imports)
    (parser : str -> res Decoded2DDoc.t) (resolver : KeyResolver)
    (check : bytes -> bytes -> PublicKey -> res bool)
    (data : str) (w : world) :
  doc28_unloaded w ->
  exists e w',
    decode_2d_doc (repo_env X parser resolver check) data w = (Raise e, w')
    /\ doc28_unloaded w'
    /\ (forall doc, parser data = Ok doc ->
          e = missing_name_error
          /\ _ensure_handlers_loaded (repo_env X parser resolver check) w
             = (Raise e, w')).
Proof.
  intros Hinv. rewrite decode_2d_doc_run. cbn [parse repo_env].
  destruct (parser data) as [doc|e] eqn:Hparse.
  - destruct (_ensure_handlers_loaded_raises X parser resolver check w Hinv)
      as (w' & Hload & Hinv').
    rewrite Hload. exists missing_name_error, w'.
    split; [reflexivity|]. split; [exact Hinv'|].
    intros doc' _. split; reflexivity.
  - exists e, w. split; [reflexivity|]. split; [exact Hinv|].
    intros doc Hdoc. discriminate.
Qed.

Lemma doc28_unloaded_initial : doc28_unloaded initial_world.
Proof.
  repeat split. simpl. rewrite list_elem_of_singleton. discriminate.
Qed.

Lemma decode_all_raises_in_repo (X : imports)
    (parser : str -> res Decoded2DDoc.t) (resolver : KeyResolver)
    (check : bytes -> bytes -> PublicKey -> res bool)
    (messages : list str) (w : world) :
  doc28_unloaded w ->
  Forall (fun outcome => exists e, outcome = Raise e)
         (decode_all (repo_env X parser resolver check) messages w).
Proof.
  revert w. induction messages as [|data rest IH]; intros w Hinv; simpl.
  - constructor.
  - destruct (decode_2d_doc_raises_in_repo X parser resolver check data w Hinv)
      as (e & w' & -> & Hinv' & _).
    constructor; [eauto|apply IH, Hinv'].
Qed.

(** C3. In the repository as it stands every call of decode raises and
    none returns.  The globals start, and stay after each call, in a state
    where the handlers are not loaded, the module of type 28 is not
    imported and no handler is registered under "28"; from such a state
    decode raises, and when the message parses what it raises is the
    TypeError of [register("28")], called without its display name while
    the handler modules load, before any dispatch.  So whatever messages
    a caller decodes in a row from the start, every outcome is a raise. *)
Theorem decode_2d_doc_never_returns (X : imports)
    (parser : str -> res Decoded2DDoc.t) (resolver : KeyResolver)
    (check : bytes -> bytes -> PublicKey -> res bool) :
  doc28_unloaded initial_world
  /\ (forall (data : str) (w : world),
        doc28_unloaded w ->
        exists e w',
          decode_2d_doc (repo_env X parser resolver check) data w
          = (Raise e, w')
          /\ doc28_unloaded w'
          /\ (forall doc, parser data = Ok doc ->
                e = TypeError
                      (py "register() missing 1 required positional argument: 'name'")
                /\ _ensure_handlers_loaded
                     (repo_env X parser resolver check) w
                   = (Raise e, w')))
  /\ forall messages : list str,
       Forall (fun outcome => exists e, outcome = Raise e)
              (decode_all (repo_env X parser resolver check) messages
                          initial_world).
Proof.
  split; [exact doc28_unloaded_initial|]. split.
  - intros data w. apply decode_2d_doc_raises_in_repo.
  - intros messages.
    apply decode_all_raises_in_repo, doc28_unloaded_initial.
Qed.

Lemma decode_2d_doc_never_returns_witness :
  doc28_unloaded initial_world
  /\ exists e w',
       decode_2d_doc
         (repo_env sample_imports sample_parse resolver_with_key check_accepts)
         card_input initial_world = (Raise e, w')
       /\ doc28_unloaded w'.
Proof.
  destruct (decode_2d_doc_never_returns sample_imports sample_parse
              resolver_with_key check_accepts) as (Hinit & Hstep & _).
  split; [exact Hinit|].
  destruct (Hstep card_input initial_world Hinit) as (e & w' & Hd & Hinv & _).
  exists e, w'. split; assumption.
Defined.

(** With no field 6C the constructor of the card is given [None] for
    [pays_naissance] and raises. *)
Lemma _handle_07_without_6C (X : imports) (d : Decoded2DDoc.t) :
  Decoded2DDoc.fields d !! py "6C" = None ->
  exists e, _handle_07 X d = Raise e.
Proof.
  intros H6C.
  unfold _handle_07, CarteIdentite_from_decoded, fmap, res_fmap, mbind, res_bind.
  destruct (to_date_ddmmyyyy X (_ !! py "69")); [|eauto].
  destruct (to_date_ddmmyyyy X (_ !! py "6N")); [|eauto].
  destruct (to_date_ddmmyyyy X (_ !! py "6O")); [|eauto].
  destruct (CarteIdentite_init _ _ _ _ _ _ _ _ _ _ _ _ _ _ _ _ _ _)
    as [obj|e] eqn:Hinit; [|eauto].
  apply CarteIdentite_init_ok in Hinit as (_ & _ & _ & _ & Hpn).
  congruence.
Qed.

(** C4. On the scenario of the specification (type 07, fields 60, 67 and
    68, a signature) decode returns nothing: in the repository it raises
    the TypeError of the handler loading; and where the handlers load, the
    handler of type 07 raises, the card having no field 6C for its
    required [pays_naissance]. *)
Theorem scenario_decode_raises (X : imports) (resolver : KeyResolver)
    (check : bytes -> bytes -> PublicKey -> res bool) :
  parse_table [(scenario_input, scenario_doc)] scenario_input = Ok scenario_doc
  /\ Decoded2DDoc.fields scenario_doc
     = <[py "60" := py "DUPONT"]>
         (<[py "67" := py "FRA"]> (<[py "68" := py "M"]> ∅))
  /\ fst (decode_2d_doc
            (repo_env X (parse_table [(scenario_input, scenario_doc)])
                      resolver check)
            scenario_input initial_world)
     = Raise (TypeError
                (py "register() missing 1 required positional argument: 'name'"))
  /\ (exists e, _handle_07 X scenario_doc = Raise e)
  /\ fst (decode_2d_doc
            (mk_Env (parse_table [(scenario_input, scenario_doc)])
                    resolver check [base_module; doc07_module sample_imports])
            scenario_input initial_world)
     = Raise (ValidationError "CarteIdentite" ["pays_naissance"%string]).
Proof.
  split; [reflexivity|]. split; [reflexivity|]. split; [|split].
  - destruct (decode_2d_doc_raises_in_repo X
                (parse_table [(scenario_input, scenario_doc)]) resolver check
                scenario_input initial_world doc28_unloaded_initial)
      as (e & w' & Hd & _ & He).
    destruct (He scenario_doc eq_refl) as [-> _].
    rewrite Hd. reflexivity.
  - apply _handle_07_without_6C. reflexivity.
  - rewrite decode_2d_doc_run.
    change (parse _ scenario_input) with (Ok scenario_doc).
    reflexivity.
Qed.

(** ** The header *)

Lemma decode_2d_doc_header (E : Env) (data : str) (w w' : world)
    (d : Decoded2DDoc.t) :
  decode_2d_doc E data w = (Ok d, w') ->
  exists doc, parse E data = Ok doc
              /\ Decoded2DDoc.header d = Decoded2DDoc.header doc.
Proof.
  rewrite decode_2d_doc_run.
  destruct (parse E data) as [doc|e]; [|discriminate].
  destruct (_ensure_handlers_loaded E w) as [[u|e] w1]; [|discriminate].
  destruct (dispatch doc w1) as [[d1|e] w2] eqn:Hd; [|discriminate].
  intros Hv. exists doc. split; [reflexivity|].
  apply attempt_verify_frame in Hv as (-> & _).
  apply dispatch_frame in Hd as (_ & -> & _). reflexivity.
Qed.

(** C9. A header is immutable: assigning any of its fields raises
    [FrozenInstanceError]; and every field of the header of the aggregate
    decode returns, of the document dispatch leaves and of the document
    [verify] leaves reads as it did before. *)
Theorem header_is_immutable :
  (forall (h : Header.t) (f : Header.field) (v : Header.field_type f),
     Header.setattr h f v
     = Raise (FrozenInstanceError
                (py "cannot assign to field " ++ quoted (Header.field_name f))))
  /\ (forall E data w d w',
        decode_2d_doc E data w = (Ok d, w') ->
        exists doc,
          parse E data = Ok doc
          /\ forall f, Header.getattr f (Decoded2DDoc.header d)
                       = Header.getattr f (Decoded2DDoc.header doc))
  /\ (forall d w d' w',
        dispatch d w = (Ok d', w') ->
        forall f, Header.getattr f (Decoded2DDoc.header d')
                  = Header.getattr f (Decoded2DDoc.header d))
  /\ (forall check resolver d r d',
        Decoded2DDoc.verify check resolver d = (r, d') ->
        forall f, Header.getattr f (Decoded2DDoc.header d')
                  = Header.getattr f (Decoded2DDoc.header d)).
Proof.
  split; [reflexivity|]. split; [|split].
  - intros E data w d w' Hd.
    apply decode_2d_doc_header in Hd as (doc & Hp & Hh).
    exists doc. split; [exact Hp|]. intros f. rewrite Hh. reflexivity.
  - intros d w d' w' Hd f.
    apply dispatch_frame in Hd as (_ & -> & _). reflexivity.
  - intros check resolver d r d' Hv f.
    apply verify_frame in Hv as (-> & _). reflexivity.
Qed.

Lemma header_is_immutable_witness :
  Header.setattr sample_header Header.f_doc_type (py "28")
  = Raise (FrozenInstanceError (py "cannot assign to field 'doc_type'"))
  /\ exists d w',
       decode_2d_doc (doc07_only_env resolver_with_key check_accepts)
                     card_input initial_world = (Ok d, w')
       /\ Header.getattr Header.f_doc_type (Decoded2DDoc.header d) = py "07".
Proof.
  destruct header_is_immutable as (Hset & Hdecode & _).
  split; [apply Hset|].
  exists (Decoded2DDoc.set_is_valid true card_dispatched),
         (snd (decode_2d_doc (doc07_only_env resolver_with_key check_accepts)
                             card_input initial_world)).
  assert (Hrun : decode_2d_doc
                   (doc07_only_env resolver_with_key check_accepts)
                   card_input initial_world
                 = (Ok (Decoded2DDoc.set_is_valid true card_dispatched),
                    snd (decode_2d_doc
                           (doc07_only_env resolver_with_key check_accepts)
                           card_input initial_world)))
    by (apply run_from_outcome; vm_compute; reflexivity).
  split; [exact Hrun|].
  destruct (Hdecode _ _ _ _ _ Hrun) as (doc & Hp & Hf).
  rewrite Hf.
  change (Ok card_doc = Ok doc) in Hp. injection Hp as <-. reflexivity.
Defined.

(** ** Runs of the pipeline on the sample card *)

(** Where the handlers load, the card decodes to its typed view, and
    [is_valid] is the answer of the signature check. *)
Example decode_card_accepted :
  fst (decode_2d_doc (doc07_only_env resolver_with_key check_accepts)
                     card_input initial_world)
  = Ok (Decoded2DDoc.set_is_valid true card_dispatched).
Proof. vm_compute. reflexivity. Qed.

Example decode_card_rejected :
  fst (decode_2d_doc (doc07_only_env resolver_with_key check_rejects)
                     card_input initial_world)
  = Ok (Decoded2DDoc.set_is_valid false card_dispatched).
Proof. vm_compute. reflexivity. Qed.

(** In the repository the first decode registers the handler of type 07,
    then stops at the module of type 28. *)
Example first_decode_in_repo :
  let run :=
    decode_2d_doc
      (repo_env sample_imports sample_parse resolver_with_key check_accepts)
      card_input initial_world in
  fst run = Raise missing_name_error
  /\ fst <$> TypeRegistry.get (_registry (snd run)) (py "07")
     = Some (_handle_07 sample_imports)
  /\ TypeRegistry.get (_registry (snd run)) (py "28") = None
  /\ sys_modules (snd run)
     = [mod_name base_module; mod_name (doc07_module sample_imports)]
  /\ _handlers_loaded (snd run) = false.
Proof. repeat split. Qed.

(** * Further properties *)

(** ** The registry *)

(** X1. Registration under a code replaces what was registered under any
    code with the same upper-case form: the last registration wins, and the
    globals are the ones a single registration would have left. *)
Theorem register_last_wins (c c' n1 n2 : str) (h1 h2 : TypeHandler)
    (w : world) :
  upper c' = upper c ->
  let w1 := snd (register c n1 h1 w) in
  let w2 := snd (register c' n2 h2 w1) in
  fst (get_handler c w2) = Ok (Some (h2, n2))
  /\ fst (get_handler c' w2) = Ok (Some (h2, n2))
  /\ w2 = snd (register c' n2 h2 w).
Proof.
  intros Heq w1 w2. subst w1 w2. rewrite !register_run. cbn [snd].
  rewrite !get_handler_run. cbn [fst set_registry _registry].
  rewrite !TypeRegistry_get_register by congruence.
  repeat split.
  unfold set_registry, TypeRegistry.register. cbn.
  rewrite Heq, insert_insert_eq. reflexivity.
Qed.

Lemma register_last_wins_witness :
  upper (py "0A") = upper (py "0a")
  /\ fst (get_handler (py "0a")
            (snd (register (py "0A") (py "second") (_handle_28 sample_imports)
                    (snd (register (py "0a") (py "first")
                            (_handle_07 sample_imports) initial_world)))))
     = Ok (Some (_handle_28 sample_imports, py "second")).
Proof.
  split; [reflexivity|].
  exact (proj1 (register_last_wins (py "0a") (py "0A") (py "first")
                  (py "second") (_handle_07 sample_imports)
                  (_handle_28 sample_imports) initial_world eq_refl)).
Defined.

(** X2. Registering a handler returns the handler, leaves the lookup of
    every code with another upper-case form as it was, and touches nothing
    of the globals but the registry. *)
Theorem register_leaves_other_codes (c c' name : str) (h : TypeHandler)
    (w : world) :
  upper c' <> upper c ->
  let w1 := snd (register c name h w) in
  fst (register c name h w) = Ok h
  /\ fst (get_handler c' w1) = fst (get_handler c' w)
  /\ _handlers_loaded w1 = _handlers_loaded w
  /\ sys_modules w1 = sys_modules w
  /\ stdout w1 = stdout w.
Proof.
  intros Hne w1. subst w1. rewrite register_run. cbn [fst snd].
  rewrite !get_handler_run. cbn [fst set_registry _registry].
  rewrite TypeRegistry_get_register_ne by exact Hne.
  repeat split.
Qed.

Lemma register_leaves_other_codes_witness :
  upper (py "07") <> upper (py "28")
  /\ fst (get_handler (py "07")
            (snd (register (py "28") (py "avis") (_handle_28 sample_imports)
                    loaded_world)))
     = fst (get_handler (py "07") loaded_world).
Proof.
  assert (Hne : upper (py "07") <> upper (py "28")) by discriminate.
  split; [exact Hne|].
  exact (proj1 (proj2 (register_leaves_other_codes (py "28") (py "07")
                         (py "avis") (_handle_28 sample_imports) loaded_world
                         Hne))).
Defined.

(** Codes are told apart by their upper case over the whole of Unicode:
    a handler registered under the code made of U+0131 LATIN SMALL LETTER
    DOTLESS I and the digit 7 is stored under [I7], and found there. *)
Example register_dotless_i_reaches_I7 :
  fst (get_handler (py "I7")
         (snd (register (py "ı7") (py "demo") (_handle_07 sample_imports)
                 initial_world)))
  = Ok (Some (_handle_07 sample_imports, py "demo")).
Proof.
  rewrite register_run. cbn [snd]. rewrite get_handler_run.
  cbn [fst set_registry _registry].
  rewrite TypeRegistry_get_register by (vm_compute; reflexivity).
  reflexivity.
Qed.

(** ** Imports and handler loading *)

Lemma _ensure_handlers_loaded_done (E : Env) (w : world) :
  _handlers_loaded w = true -> _ensure_handlers_loaded E w = (Ok tt, w).
Proof.
  intros Hl. unfold _ensure_handlers_loaded, mbind, St_bind, get_state.
  rewrite Hl. reflexivity.
Qed.

(** X3. The handlers are loaded at most once: when
    [_ensure_handlers_loaded] returns, the loaded flag is set, and any
    later call returns at once and leaves the globals as they are,
    whatever modules the package then holds. *)
Theorem handlers_loaded_once (E : Env) (w w1 : world) :
  _ensure_handlers_loaded E w = (Ok tt, w1) ->
  _handlers_loaded w1 = true
  /\ forall E', _ensure_handlers_loaded E' w1 = (Ok tt, w1).
Proof.
  intros Hload.
  assert (Hl : _handlers_loaded w1 = true).
  { revert Hload.
    unfold _ensure_handlers_loaded, mbind, St_bind, get_state, modify.
    destruct (_handlers_loaded w) eqn:Hw.
    - intros [= <-]. exact Hw.
    - destruct (for_each _ _ w) as [[u|e] w2]; intros [= <-]; reflexivity. }
  split; [exact Hl|]. intros E'. apply _ensure_handlers_loaded_done, Hl.
Qed.

Lemma handlers_loaded_once_witness :
  _ensure_handlers_loaded (doc07_only_env resolver_with_key check_accepts)
                          initial_world
  = (Ok tt, loaded_world)
  /\ _handlers_loaded loaded_world = true
  /\ _ensure_handlers_loaded
       (repo_env sample_imports sample_parse resolver_with_key check_accepts)
       loaded_world
     = (Ok tt, loaded_world).
Proof.
  split; [reflexivity|].
  destruct (handlers_loaded_once
              (doc07_only_env resolver_with_key check_accepts)
              initial_world loaded_world eq_refl) as [Hl Hagain].
  split; [exact Hl|apply Hagain].
Defined.

(** ** decode_2d_doc *)

(** X4. Once the handlers are loaded, a decode, whatever its outcome,
    leaves the registry, the loaded flag and the imported modules as they
    were.  It prints exactly one line, the warning that carries the text
    of the exception [e], when [parse] and dispatch returned, [verify] on
    the dispatched aggregate raised [e], [e] is an [Exception], and decode
    returns the aggregate as [verify] left it.  In every other case it
    prints nothing; [verify] on the dispatched aggregate, if decode came
    to it, then raised no [Exception]. *)
Theorem decode_2d_doc_loaded_frame (E : Env) (data : str) (w w' : world)
    (r : res Decoded2DDoc.t) :
  _handlers_loaded w = true ->
  decode_2d_doc E data w = (r, w') ->
  let verify :=
    Decoded2DDoc.verify (verify_signature E) (local_key_resolver E) in
  _registry w' = _registry w
  /\ _handlers_loaded w' = true
  /\ sys_modules w' = sys_modules w
  /\ ((stdout w' = stdout w
       /\ forall doc d1 e,
            parse E data = Ok doc ->
            fst (dispatch doc w) = Ok d1 ->
            fst (verify d1) = Raise e ->
            is_Exception e = false)
      \/ exists doc d1 e,
           parse E data = Ok doc
           /\ fst (dispatch doc w) = Ok d1
           /\ fst (verify d1) = Raise e
           /\ is_Exception e = true
           /\ r = Ok (snd (verify d1))
           /\ stdout w'
              = stdout w
                ++ [py "Warning: signature verification failed: "
                    ++ exn_str e]).
Proof.
  intros Hl Hrun verify. subst verify. revert Hrun.
  rewrite decode_2d_doc_run.
  destruct (parse E data) as [doc|e0].
  { rewrite (_ensure_handlers_loaded_done E w Hl).
    pose proof (dispatch_world doc w) as Hw.
    destruct (dispatch doc w) as [[d1|e0] w2] eqn:Hd;
      cbn [snd] in Hw; subst w2.
    - rewrite attempt_verify_run.
      destruct (Decoded2DDoc.verify (verify_signature E)
                  (local_key_resolver E) d1) as [[u|e] d2] eqn:Hv.
      + intros [= <- <-]. split_and!; [reflexivity|exact Hl|reflexivity|].
        left. split; [reflexivity|].
        intros doc0 d0 e [= <-] Hok Hraise. rewrite Hd in Hok.
        injection Hok as <-. rewrite Hv in Hraise. discriminate Hraise.
      + destruct (is_Exception e) eqn:He; intros [= <- <-].
        * split_and!; [reflexivity|exact Hl|reflexivity|].
          right. exists doc, d1, e. rewrite Hd, Hv.
          split_and!; [reflexivity|reflexivity|reflexivity|exact He
                      |reflexivity|reflexivity].
        * split_and!; [reflexivity|exact Hl|reflexivity|].
          left. split; [reflexivity|].
          intros doc0 d0 e1 [= <-] Hok Hraise. rewrite Hd in Hok.
          injection Hok as <-. rewrite Hv in Hraise.
          injection Hraise as <-. exact He.
    - intros [= <- <-]. split_and!; [reflexivity|exact Hl|reflexivity|].
      left. split; [reflexivity|].
      intros doc0 d0 e [= <-] Hok. rewrite Hd in Hok. discriminate Hok. }
  intros [= <- <-]. split_and!; [reflexivity|exact Hl|reflexivity|].
  left. split; [reflexivity|]. intros doc0 d0 e Hparse. discriminate Hparse.
Qed.

Lemma decode_2d_doc_loaded_frame_witness :
  _handlers_loaded loaded_world = true
  /\ _registry (snd (decode_2d_doc
                      (doc07_only_env resolver_without_key check_accepts)
                      card_input loaded_world))
     = _registry loaded_world.
Proof.
  split; [reflexivity|].
  exact (proj1 (decode_2d_doc_loaded_frame
                  (doc07_only_env resolver_without_key check_accepts)
                  card_input loaded_world _ _ eq_refl
                  (surjective_pairing _))).
Defined.

(** X5. An exception raised by decode is the one [parse] raised (the
    globals are then untouched), or the one the handler loading raised, or
    the one the registered handler raised, or an exception of [verify]
    that is not an [Exception]; no [Exception] of the verification step
    ever comes out of decode. *)
Theorem decode_2d_doc_raise_origin (E : Env) (data : str) (w w' : world)
    (e : exn) :
  decode_2d_doc E data w = (Raise e, w') ->
  (parse E data = Raise e /\ w' = w)
  \/ (exists doc,
        parse E data = Ok doc
        /\ _ensure_handlers_loaded E w = (Raise e, w'))
  \/ (exists doc h name,
        parse E data = Ok doc
        /\ _ensure_handlers_loaded E w = (Ok tt, w')
        /\ fst (get_handler (Header.doc_type (Decoded2DDoc.header doc)) w')
           = Ok (Some (h, name))
        /\ h doc = Raise e)
  \/ (exists doc d1,
        parse E data = Ok doc
        /\ _ensure_handlers_loaded E w = (Ok tt, w')
        /\ dispatch doc w' = (Ok d1, w')
        /\ fst (Decoded2DDoc.verify (verify_signature E)
                  (local_key_resolver E) d1) = Raise e
        /\ is_Exception e = false).
Proof.
  rewrite decode_2d_doc_run.
  destruct (parse E data) as [doc|e0].
  2:{ intros [= <- <-]. left. auto. }
  destruct (_ensure_handlers_loaded E w) as [[[]|e0] w1] eqn:Hload.
  2:{ intros [= <- <-]. right; left. eauto. }
  destruct (dispatch doc w1) as [[d1|e0] w2] eqn:Hd.
  - assert (w2 = w1) as -> by (apply dispatch_frame in Hd; tauto).
    destruct (attempt_verify_outcome E d1 w1)
      as [(d & w3 & Hv)|(e1 & Hv & He & Hraise)];
      rewrite Hv; intros [= <- <-].
    right; right; right. exists doc, d1. auto.
  - intros [= <- <-]. right; right; left.
    rewrite dispatch_run in Hd.
    destruct (TypeRegistry.get _ _) as [[h name]|] eqn:Hg; [|discriminate].
    destruct (h doc) eqn:Hh; [discriminate|].
    injection Hd as <- <-. exists doc, h, name.
    rewrite get_handler_run. cbn [fst]. rewrite Hg. auto.
Qed.

Lemma decode_2d_doc_raise_origin_witness :
  exists e w',
    decode_2d_doc (doc07_only_env resolver_with_key check_accepts)
                  (py "nogenre") initial_world = (Raise e, w')
    /\ _handle_07 sample_imports nogenre_doc = Raise e.
Proof.
  exists (ValueError (py "Le genre (68) est obligatoire.")),
         (snd (decode_2d_doc (doc07_only_env resolver_with_key check_accepts)
                             (py "nogenre") initial_world)).
  assert (Hrun : decode_2d_doc
                   (doc07_only_env resolver_with_key check_accepts)
                   (py "nogenre") initial_world
                 = (Raise (ValueError (py "Le genre (68) est obligatoire.")),
                    snd (decode_2d_doc
                           (doc07_only_env resolver_with_key check_accepts)
                           (py "nogenre") initial_world)))
    by (apply run_from_outcome; vm_compute; reflexivity).
  split; [exact Hrun|].
  destruct (decode_2d_doc_raise_origin _ _ _ _ _ Hrun)
    as [[Hp _]|[(doc & _ & Hl)|[(doc & h & name & Hp & _ & Hg & Hh)
                                |(doc & d1 & _ & _ & _ & _ & He)]]].
  - discriminate Hp.
  - apply (f_equal fst) in Hl. vm_compute in Hl. discriminate Hl.
  - vm_compute. reflexivity.
  - discriminate He.
Defined.

(** X6. When the signature is present, the key resolves and the
    signature check answers, decode returns the aggregate of the dispatch
    with [is_valid] set to the answer of the check on the signed payload,
    the signature bytes and the resolved key, and prints nothing. *)
Theorem decode_2d_doc_validity_from_check (E : Env) (data : str)
    (w w1 : world) (doc d1 : Decoded2DDoc.t) (sig : bytes) (pub : PublicKey)
    (valid : bool) :
  parse E data = Ok doc ->
  _ensure_handlers_loaded E w = (Ok tt, w1) ->
  dispatch doc w1 = (Ok d1, w1) ->
  SignatureBlock.present (Decoded2DDoc.signature doc) = true ->
  SignatureBlock.raw (Decoded2DDoc.signature doc) = Some sig ->
  truthy sig = true ->
  local_key_resolver E (Header.ca_id (Decoded2DDoc.header doc))
                       (Header.cert_id (Decoded2DDoc.header doc)) = Ok pub ->
  verify_signature E (Decoded2DDoc.sign_payload doc) sig pub = Ok valid ->
  decode_2d_doc E data w = (Ok (Decoded2DDoc.set_is_valid valid d1), w1).
Proof.
  intros Hparse Hload Hd Hp Hraw Hsig Hkey Hcheck.
  rewrite decode_2d_doc_run, Hparse, Hload, Hd, attempt_verify_run, verify_run.
  apply dispatch_frame in Hd as (_ & Hh & Hpl & _ & Hs & _).
  rewrite Hs, Hh, Hpl, Hp, Hraw, Hkey. simpl. rewrite Hsig, Hcheck.
  reflexivity.
Qed.

Lemma decode_2d_doc_validity_from_check_witness :
  parse (doc07_only_env resolver_with_key check_rejects) card_input
  = Ok card_doc
  /\ verify_signature (doc07_only_env resolver_with_key check_rejects)
       (Decoded2DDoc.sign_payload card_doc) (repeat x00 64) (repeat x01 64)
     = Ok false
  /\ decode_2d_doc (doc07_only_env resolver_with_key check_rejects)
                   card_input initial_world
     = (Ok (Decoded2DDoc.set_is_valid false card_dispatched), loaded_world).
Proof.
  split; [reflexivity|]. split; [reflexivity|].
  apply (decode_2d_doc_validity_from_check
           (doc07_only_env resolver_with_key check_rejects) card_input
           initial_world loaded_world card_doc card_dispatched
           (repeat x00 64) (repeat x01 64) false);
    reflexivity.
Defined.

(** X7. A document without signature decodes: decode returns the
    aggregate of the dispatch, with a typed view and with [is_valid] as the
    parse left it, and prints the warning that carries the message of
    [verify] for a missing signature. *)
Theorem decode_2d_doc_unsigned (E : Env) (data : str) (w w1 : world)
    (doc d1 : Decoded2DDoc.t) :
  parse E data = Ok doc ->
  _ensure_handlers_loaded E w = (Ok tt, w1) ->
  dispatch doc w1 = (Ok d1, w1) ->
  SignatureBlock.present (Decoded2DDoc.signature doc) = false ->
  decode_2d_doc E data w
  = (Ok d1,
     snd (print (py "Warning: signature verification failed: "
                 ++ py "Pas de signature présente dans ce 2D-DOC.") w1))
  /\ Decoded2DDoc.is_valid d1 = Decoded2DDoc.is_valid doc
  /\ is_Some (Decoded2DDoc.typed d1).
Proof.
  intros Hparse Hload Hd Hp.
  rewrite decode_2d_doc_run, Hparse, Hload, Hd, attempt_verify_run, verify_run.
  apply dispatch_frame in Hd as (_ & _ & _ & _ & Hs & Hv & Ht).
  rewrite Hs, Hp. split; [reflexivity|]. split; assumption.
Qed.

Lemma decode_2d_doc_unsigned_witness :
  parse (doc07_only_env resolver_with_key check_accepts) (py "unsigned")
  = Ok unsigned_doc
  /\ SignatureBlock.present (Decoded2DDoc.signature unsigned_doc) = false
  /\ exists d, fst (decode_2d_doc
                      (doc07_only_env resolver_with_key check_accepts)
                      (py "unsigned") initial_world) = Ok d
               /\ Decoded2DDoc.is_valid d = false.
Proof.
  split; [reflexivity|]. split; [reflexivity|].
  destruct (decode_2d_doc_unsigned
              (doc07_only_env resolver_with_key check_accepts)
              (py "unsigned") initial_world loaded_world unsigned_doc
              (Decoded2DDoc.set_ants_type (Some (py "carte_identite"))
                 (Decoded2DDoc.set_typed (Some (TV_CarteIdentite card_view))
                    unsigned_doc)))
    as (Hrun & Hv & _); try reflexivity.
  rewrite Hrun. eexists. split; [reflexivity|exact Hv].
Defined.

(** X8. When the type of the document has a registered handler and the
    handler returns a view, dispatch sets [typed] to this view and
    [ants_type] to the registered display name, and the aggregate decode
    returns carries both. *)
Theorem decode_2d_doc_registered_handler (E : Env) (data : str)
    (w w1 : world) (doc : Decoded2DDoc.t) (h : TypeHandler) (name : str)
    (view : TypedView) :
  parse E data = Ok doc ->
  _ensure_handlers_loaded E w = (Ok tt, w1) ->
  fst (get_handler (Header.doc_type (Decoded2DDoc.header doc)) w1)
    = Ok (Some (h, name)) ->
  h doc = Ok view ->
  dispatch doc w1
  = (Ok (Decoded2DDoc.set_ants_type (Some name)
           (Decoded2DDoc.set_typed (Some view) doc)), w1)
  /\ ((exists d w', decode_2d_doc E data w = (Ok d, w')
                   /\ Decoded2DDoc.typed d = Some view
                   /\ Decoded2DDoc.ants_type d = Some name)
      \/ (exists e, decode_2d_doc E data w = (Raise e, w1)
                   /\ is_Exception e = false)).
Proof.
  intros Hparse Hload Hhit Hview.
  rewrite get_handler_run in Hhit. cbn [fst] in Hhit. injection Hhit as Hhit.
  assert (Hd : dispatch doc w1
               = (Ok (Decoded2DDoc.set_ants_type (Some name)
                        (Decoded2DDoc.set_typed (Some view) doc)), w1)).
  { rewrite dispatch_run, Hhit, Hview. reflexivity. }
  split; [exact Hd|].
  rewrite decode_2d_doc_run, Hparse, Hload, Hd.
  destruct (attempt_verify_outcome E
              (Decoded2DDoc.set_ants_type (Some name)
                 (Decoded2DDoc.set_typed (Some view) doc)) w1)
    as [(d & w' & Hv)|(e & Hv & He & _)].
  - left. exists d, w'. split; [exact Hv|].
    apply attempt_verify_frame in Hv as (_ & _ & _ & _ & Ht & Ha).
    rewrite Ht, Ha. split; reflexivity.
  - right. exists e. split; assumption.
Qed.

Lemma decode_2d_doc_registered_handler_witness :
  parse (doc07_only_env resolver_with_key check_accepts) card_input
  = Ok card_doc
  /\ _handle_07 sample_imports card_doc = Ok (TV_CarteIdentite card_view)
  /\ dispatch card_doc loaded_world = (Ok card_dispatched, loaded_world).
Proof.
  split; [reflexivity|]. split; [vm_compute; reflexivity|].
  apply (decode_2d_doc_registered_handler
           (doc07_only_env resolver_with_key check_accepts) card_input
           initial_world loaded_world card_doc (_handle_07 sample_imports)
           (py "carte_identite") (TV_CarteIdentite card_view));
    reflexivity.
Defined.

(** ** Decoded2DDoc.verify *)

(** X9. [verify] raises its missing-signature error also when the
    signature block is marked present and its raw bytes are [None] or
    empty; the resolver and the check are not consulted and the document
    is unchanged. *)
Theorem verify_without_raw_bytes_raises
    (check : bytes -> bytes -> PublicKey -> res bool) (resolver : KeyResolver)
    (d : Decoded2DDoc.t) :
  SignatureBlock.raw (Decoded2DDoc.signature d) = None
  \/ SignatureBlock.raw (Decoded2DDoc.signature d) = Some [] ->
  Decoded2DDoc.verify check resolver d
  = (Raise (ValueError (py "Pas de signature présente dans ce 2D-DOC.")), d).
Proof.
  intros Hraw. rewrite verify_run.
  destruct Hraw as [-> | ->]; simpl; rewrite orb_true_r; reflexivity.
Qed.

Lemma verify_without_raw_bytes_raises_witness :
  SignatureBlock.present (Decoded2DDoc.signature empty_raw_doc) = true
  /\ SignatureBlock.raw (Decoded2DDoc.signature empty_raw_doc) = Some []
  /\ Decoded2DDoc.verify check_accepts resolver_with_key empty_raw_doc
     = (Raise (ValueError (py "Pas de signature présente dans ce 2D-DOC.")),
        empty_raw_doc).
Proof.
  split; [reflexivity|]. split; [reflexivity|].
  apply (verify_without_raw_bytes_raises check_accepts resolver_with_key
           empty_raw_doc).
  right. reflexivity.
Defined.

(** X10. When the key resolver raises, [verify] raises the same
    exception, whatever the signature check is, and leaves the document,
    [is_valid] included, unchanged. *)
Theorem verify_resolver_failure_propagates
    (check : bytes -> bytes -> PublicKey -> res bool) (resolver : KeyResolver)
    (d : Decoded2DDoc.t) (sig : bytes) (e : exn) :
  SignatureBlock.present (Decoded2DDoc.signature d) = true ->
  SignatureBlock.raw (Decoded2DDoc.signature d) = Some sig ->
  truthy sig = true ->
  resolver (Header.ca_id (Decoded2DDoc.header d))
           (Header.cert_id (Decoded2DDoc.header d)) = Raise e ->
  Decoded2DDoc.verify check resolver d = (Raise e, d).
Proof.
  intros Hp Hraw Hsig Hkey. rewrite verify_run, Hp, Hraw, Hkey. simpl.
  rewrite Hsig. reflexivity.
Qed.

Lemma verify_resolver_failure_propagates_witness :
  SignatureBlock.present (Decoded2DDoc.signature card_doc) = true
  /\ resolver_without_key (Header.ca_id (Decoded2DDoc.header card_doc))
                          (Header.cert_id (Decoded2DDoc.header card_doc))
     = Raise (ForeignException "KeyNotFound" (py "no key for this certificate"))
  /\ Decoded2DDoc.verify check_accepts resolver_without_key card_doc
     = (Raise (ForeignException "KeyNotFound"
                 (py "no key for this certificate")), card_doc).
Proof.
  split; [reflexivity|]. split; [reflexivity|].
  apply (verify_resolver_failure_propagates check_accepts resolver_without_key
           card_doc (repeat x00 64));
    reflexivity.
Defined.

(** X11. [verify] reads only the header, the signed payload and the
    signature block: on two documents that agree on these it has the same
    outcome and, when it returns, sets the same [is_valid], whatever their
    fields, typed views and display names. *)
Theorem verify_reads_header_payload_signature
    (check : bytes -> bytes -> PublicKey -> res bool) (resolver : KeyResolver)
    (d d2 : Decoded2DDoc.t) :
  Decoded2DDoc.header d2 = Decoded2DDoc.header d ->
  Decoded2DDoc.sign_payload d2 = Decoded2DDoc.sign_payload d ->
  Decoded2DDoc.signature d2 = Decoded2DDoc.signature d ->
  fst (Decoded2DDoc.verify check resolver d2)
  = fst (Decoded2DDoc.verify check resolver d)
  /\ (fst (Decoded2DDoc.verify check resolver d) = Ok tt ->
      Decoded2DDoc.is_valid (snd (Decoded2DDoc.verify check resolver d2))
      = Decoded2DDoc.is_valid (snd (Decoded2DDoc.verify check resolver d))).
Proof.
  intros Hh Hp Hs. rewrite !verify_run, Hh, Hp, Hs.
  destruct (negb _ || negb _); [split; [reflexivity|discriminate]|].
  destruct (resolver _ _); [|split; [reflexivity|discriminate]].
  destruct (check _ _ _); split; try reflexivity; discriminate.
Qed.


Lemma verify_reads_header_payload_signature_witness :
  Decoded2DDoc.header card_dispatched = Decoded2DDoc.header card_doc
  /\ fst (Decoded2DDoc.verify check_rejects resolver_with_key card_dispatched)
     = fst (Decoded2DDoc.verify check_rejects resolver_with_key card_doc).
Proof.
  split; [reflexivity|].
  refine (proj1 (verify_reads_header_payload_signature check_rejects
                   resolver_with_key card_doc card_dispatched _ _ _));
    reflexivity.
Defined.


(** ** The handler of type 07 *)

Lemma CarteIdentite_init_inv (X : imports) dt lp pr np nu tp nd na ge dn ln pn
    mr dd df ad ex (obj : CarteIdentite.t) :
  CarteIdentite_init X dt lp pr np nu tp nd na ge dn ln pn mr dd df ad ex
    = Ok obj ->
  exists pays,
    pn = Some pays /\ dt = py "07"
    /\ (pydantic_implicit_optional X = true \/ is_Some np)
    /\ obj = CarteIdentite.mk dt lp pr np nu tp nd na ge dn ln pays mr dd df
                              ad ex.
Proof.
  unfold CarteIdentite_init.
  case_bool_decide as Hdt; [|discriminate].
  destruct (pydantic_implicit_optional X) eqn:Hopt; simpl.
  - destruct pn as [pays|]; [|discriminate].
    simpl. intros [= <-]. exists pays. auto.
  - case_bool_decide as Hnp; [|discriminate].
    destruct pn as [pays|]; [|discriminate].
    simpl. intros [= <-]. exists pays. auto.
Qed.

Lemma CarteIdentite_validate_ok (obj : CarteIdentite.t) :
  CarteIdentite_validate obj = Ok tt ->
  CarteIdentite.liste_prenoms obj <> []
  /\ CarteIdentite.nationalite obj <> []
  /\ CarteIdentite.genre obj <> [].
Proof.
  unfold CarteIdentite_validate.
  destruct (CarteIdentite.liste_prenoms obj); simpl; [discriminate|].
  destruct (CarteIdentite.nationalite obj); simpl; [discriminate|].
  destruct (CarteIdentite.genre obj); simpl; [discriminate|].
  intros _. repeat split; discriminate.
Qed.

(** X12. A view returned by the handler of type 07 is a card of a
    document of type "07" whose first names, nationality and gender are
    the fields 60, 67 and 68 with surrounding white space stripped, none
    of them empty, whose country of birth is the field 6C, and whose
    extras are exactly the fields with an identifier the card does not
    know. *)
Theorem handle_07_accepted_card (X : imports) (d : Decoded2DDoc.t)
    (view : TypedView) :
  _handle_07 X d = Ok view ->
  exists card,
    view = TV_CarteIdentite card
    /\ Header.doc_type (Decoded2DDoc.header d) = py "07"
    /\ CarteIdentite.doc_type card = py "07"
    /\ CarteIdentite.liste_prenoms card
       = strip (default [] (Decoded2DDoc.fields d !! py "60"))
    /\ CarteIdentite.liste_prenoms card <> []
    /\ CarteIdentite.nationalite card
       = strip (default [] (Decoded2DDoc.fields d !! py "67"))
    /\ CarteIdentite.nationalite card <> []
    /\ CarteIdentite.genre card
       = strip (default [] (Decoded2DDoc.fields d !! py "68"))
    /\ CarteIdentite.genre card <> []
    /\ Decoded2DDoc.fields d !! py "6C"
       = Some (CarteIdentite.pays_naissance card)
    /\ (forall k v,
          CarteIdentite.extras card !! k = Some v
          <-> Decoded2DDoc.fields d !! k = Some v /\ k ∉ known_07).
Proof.
  unfold _handle_07, CarteIdentite_from_decoded, fmap, res_fmap, mbind, res_bind.
  destruct (to_date_ddmmyyyy X (_ !! py "69")) as [dn|]; [|discriminate].
  destruct (to_date_ddmmyyyy X (_ !! py "6N")) as [dd|]; [|discriminate].
  destruct (to_date_ddmmyyyy X (_ !! py "6O")) as [df|]; [|discriminate].
  destruct (CarteIdentite_init _ _ _ _ _ _ _ _ _ _ _ _ _ _ _ _ _ _)
    as [obj|] eqn:Hinit; [|discriminate].
  destruct (CarteIdentite_validate obj) as [[]|] eqn:Hval; [|discriminate].
  intros [= <-]. exists obj.
  apply CarteIdentite_validate_ok in Hval as (Hlp & Hna & Hge).
  apply CarteIdentite_init_inv in Hinit as (pays & Hpn & Hdt & _ & ->).
  cbn [CarteIdentite.liste_prenoms CarteIdentite.nationalite
       CarteIdentite.genre CarteIdentite.doc_type
       CarteIdentite.pays_naissance CarteIdentite.extras] in *.
  split_and!; try assumption; try reflexivity.
  intros k v. apply map_lookup_filter_Some.
Qed.

Lemma handle_07_accepted_card_witness :
  _handle_07 sample_imports card_doc = Ok (TV_CarteIdentite card_view)
  /\ exists card,
       TV_CarteIdentite card_view = TV_CarteIdentite card
       /\ CarteIdentite.liste_prenoms card <> [].
Proof.
  assert (Hrun : _handle_07 sample_imports card_doc
                 = Ok (TV_CarteIdentite card_view))
    by (vm_compute; reflexivity).
  split; [exact Hrun|].
  destruct (handle_07_accepted_card sample_imports card_doc
              (TV_CarteIdentite card_view) Hrun)
    as (card & Hview & _ & _ & _ & Hlp & _).
  exists card. split; [exact Hview|exact Hlp].
Defined.

Lemma CarteIdentite_init_complete (X : imports) dt lp pr np nu tp nd na ge dn
    ln pays mr dd df ad ex :
  dt = py "07" ->
  pydantic_implicit_optional X = true \/ is_Some np ->
  CarteIdentite_init X dt lp pr np nu tp nd na ge dn ln (Some pays) mr dd df
                     ad ex
  = Ok (CarteIdentite.mk dt lp pr np nu tp nd na ge dn ln pays mr dd df ad ex).
Proof.
  intros Hdt Hnp. unfold CarteIdentite_init.
  rewrite (bool_decide_eq_true_2 _ Hdt).
  replace (pydantic_implicit_optional X || bool_decide (is_Some np))
    with true.
  2:{ symmetry. destruct Hnp as [-> | Hnp]; [reflexivity|].
      rewrite (bool_decide_eq_true_2 _ Hnp). apply orb_true_r. }
  rewrite bool_decide_eq_true_2 by eauto.
  reflexivity.
Qed.

Lemma CarteIdentite_validate_nonempty (obj : CarteIdentite.t) :
  CarteIdentite.liste_prenoms obj <> [] ->
  CarteIdentite.nationalite obj <> [] ->
  CarteIdentite.genre obj <> [] ->
  CarteIdentite_validate obj = Ok tt.
Proof.
  unfold CarteIdentite_validate. intros H1 H2 H3.
  destruct (CarteIdentite.liste_prenoms obj); [congruence|].
  destruct (CarteIdentite.nationalite obj); [congruence|].
  destruct (CarteIdentite.genre obj); [congruence|].
  reflexivity.
Qed.

(** X13. The handler of type 07 returns a card as soon as the type is
    "07", the three date conversions succeed, the field 6C is there, the
    field 62 is there or pydantic makes it optional, and the fields 60, 67
    and 68 are not empty once stripped; every other field may be missing. *)
Theorem handle_07_accepts_complete_card (X : imports) (d : Decoded2DDoc.t)
    (naissance debut fin : option date) (pays : str) :
  Header.doc_type (Decoded2DDoc.header d) = py "07" ->
  to_date_ddmmyyyy X (Decoded2DDoc.fields d !! py "69") = Ok naissance ->
  to_date_ddmmyyyy X (Decoded2DDoc.fields d !! py "6N") = Ok debut ->
  to_date_ddmmyyyy X (Decoded2DDoc.fields d !! py "6O") = Ok fin ->
  Decoded2DDoc.fields d !! py "6C" = Some pays ->
  pydantic_implicit_optional X = true
  \/ is_Some (Decoded2DDoc.fields d !! py "62") ->
  strip (default [] (Decoded2DDoc.fields d !! py "60")) <> [] ->
  strip (default [] (Decoded2DDoc.fields d !! py "67")) <> [] ->
  strip (default [] (Decoded2DDoc.fields d !! py "68")) <> [] ->
  exists card,
    _handle_07 X d = Ok (TV_CarteIdentite card)
    /\ CarteIdentite.date_naissance card = naissance
    /\ CarteIdentite.date_debut_validite card = debut
    /\ CarteIdentite.date_fin_validite card = fin
    /\ CarteIdentite.pays_naissance card = pays
    /\ CarteIdentite.nom_patronymique card = Decoded2DDoc.fields d !! py "62".
Proof.
  intros Hdt H69 H6N H6O H6C H62 H60 H67 H68.
  unfold _handle_07, CarteIdentite_from_decoded, fmap, res_fmap, mbind, res_bind.
  rewrite H69, H6N, H6O, Hdt, H6C. cbv beta iota.
  erewrite CarteIdentite_init_complete by (reflexivity || exact H62).
  cbv beta iota.
  rewrite CarteIdentite_validate_nonempty by assumption.
  eexists. split; [reflexivity|]. repeat split.
Qed.

Lemma handle_07_accepts_complete_card_witness :
  Header.doc_type (Decoded2DDoc.header card_doc) = py "07"
  /\ Decoded2DDoc.fields card_doc !! py "6C" = Some (py "FR")
  /\ exists card, _handle_07 sample_imports card_doc = Ok (TV_CarteIdentite card)
                  /\ CarteIdentite.pays_naissance card = py "FR".
Proof.
  split; [reflexivity|]. split; [reflexivity|].
  destruct (handle_07_accepts_complete_card sample_imports card_doc
              None None None (py "FR"))
    as (card & Hrun & _ & _ & _ & Hpays & _);
    try reflexivity; try (left; reflexivity); try (vm_compute; discriminate).
  exists card. split; assumption.
Defined.

Lemma lstrip_all_space (s : str) :
  forallb isspace_cp s = true -> lstrip s = [].
Proof.
  induction s as [|c s IH]; simpl; [reflexivity|].
  intros H. apply andb_true_iff in H as [Hc Hs]. rewrite Hc. auto.
Qed.

Lemma strip_all_space (s : str) :
  forallb isspace_cp s = true -> strip s = [].
Proof.
  intros H. unfold strip, rstrip. rewrite (lstrip_all_space s H).
  reflexivity.
Qed.

Lemma _handle_07_stripped_empty (X : imports) (d : Decoded2DDoc.t) :
  strip (default [] (Decoded2DDoc.fields d !! py "60")) = []
  \/ strip (default [] (Decoded2DDoc.fields d !! py "67")) = []
  \/ strip (default [] (Decoded2DDoc.fields d !! py "68")) = [] ->
  exists e, _handle_07 X d = Raise e.
Proof.
  intros Hempty.
  unfold _handle_07, CarteIdentite_from_decoded, fmap, res_fmap, mbind, res_bind.
  destruct (to_date_ddmmyyyy X (_ !! py "69")); [|eauto].
  destruct (to_date_ddmmyyyy X (_ !! py "6N")); [|eauto].
  destruct (to_date_ddmmyyyy X (_ !! py "6O")); [|eauto].
  destruct (CarteIdentite_init _ _ _ _ _ _ _ _ _ _ _ _ _ _ _ _ _ _)
    as [obj|e] eqn:Hinit; [|eauto].
  apply CarteIdentite_init_ok in Hinit as (Hlp & Hna & Hge & _).
  destruct (CarteIdentite_validate_blank obj) as [msg Hmsg].
  { rewrite Hlp, Hna, Hge. exact Hempty. }
  rewrite Hmsg. eauto.
Qed.

(** X14. A field 60, 67 or 68 made of white space only is rejected by
    the handler of type 07 like a missing one. *)
Theorem handle_07_rejects_white_space (X : imports) (d : Decoded2DDoc.t)
    (k : string) (s : str) :
  k = "60"%string \/ k = "67"%string \/ k = "68"%string ->
  Decoded2DDoc.fields d !! py k = Some s ->
  forallb isspace_cp s = true ->
  exists e, _handle_07 X d = Raise e.
Proof.
  intros Hk Hs Hspace. apply _handle_07_stripped_empty.
  destruct Hk as [-> | [-> | ->]]; rewrite Hs;
    change (default [] (Some s)) with s;
    rewrite (strip_all_space s Hspace); auto.
Qed.

Lemma handle_07_rejects_white_space_witness :
  Decoded2DDoc.fields spaces_doc !! py "60" = Some (py "  ")
  /\ forallb isspace_cp (py "  ") = true
  /\ exists e, _handle_07 sample_imports spaces_doc = Raise e.
Proof.
  split; [reflexivity|]. split; [reflexivity|].
  apply (handle_07_rejects_white_space sample_imports spaces_doc "60"
           (py "  "));
    [left; reflexivity|reflexivity|reflexivity].
Defined.

(** ** The handler of type 28 *)

Lemma AvisImposition_validate_ok (self : AvisImposition.t) :
  AvisImposition_validate self = Ok tt ->
  (exists parts, AvisImposition.nombre_de_parts self = Some parts
                 /\ coefficient parts <> 0)
  /\ AvisImposition.reference_avis self <> []
  /\ (exists year, AvisImposition.annee_des_revenus self = Some year
                   /\ year <> 0%Z)
  /\ AvisImposition.declarant_1 self <> []
  /\ is_Some (AvisImposition.date_mise_en_recouvrement self)
  /\ AdresseImposition.is_ok_28 (AvisImposition.adresse self) = true.
Proof.
  unfold AvisImposition_validate.
  destruct (AvisImposition.nombre_de_parts self) as [parts|]; simpl;
    [|discriminate].
  unfold Decimal_truthy.
  destruct (coefficient parts =? 0) eqn:Hparts; simpl; [discriminate|].
  destruct (AvisImposition.reference_avis self); simpl; [discriminate|].
  destruct (AvisImposition.annee_des_revenus self) as [year|]; simpl;
    [|discriminate].
  destruct (year =? 0)%Z eqn:Hyear; simpl; [discriminate|].
  destruct (AvisImposition.declarant_1 self); simpl; [discriminate|].
  destruct (AvisImposition.date_mise_en_recouvrement self); simpl;
    [|discriminate].
  destruct (AdresseImposition.is_ok_28 _); simpl; [|discriminate].
  intros _. apply N.eqb_neq in Hparts. apply Z.eqb_neq in Hyear.
  repeat split; eauto; discriminate.
Qed.

Lemma truthy_opt_Some {A} (o : option (list A)) :
  truthy_opt truthy o = true <-> exists s, o = Some s /\ s <> [].
Proof.
  destruct o as [[|a s]|]; simpl; split.
  - discriminate.
  - intros (s & [= <-] & Hs). congruence.
  - intros _. eexists. split; [reflexivity|discriminate].
  - reflexivity.
  - discriminate.
  - intros (s & Hs & _). discriminate.
Qed.

Lemma is_ok_28_rule (a : AdresseImposition.t) :
  AdresseImposition.is_ok_28 a = true <->
  (exists s, AdresseImposition.full a = Some s /\ s <> [])
  \/ ((exists s, AdresseImposition.voie a = Some s /\ s <> [])
      /\ (exists s, AdresseImposition.code_postal a = Some s /\ s <> [])
      /\ (exists s, AdresseImposition.commune a = Some s /\ s <> [])
      /\ (exists s, AdresseImposition.pays a = Some s /\ s <> [])).
Proof.
  unfold AdresseImposition.is_ok_28.
  rewrite orb_true_iff, !andb_true_iff, !truthy_opt_Some. tauto.
Qed.

Lemma _handle_28_ok_inv (X : imports) (d : Decoded2DDoc.t)
    (view : TypedView) :
  _handle_28 X d = Ok view ->
  let f := Decoded2DDoc.fields d in
  exists avis,
    view = TV_AvisImposition avis
    /\ AvisImposition.doc_type avis = Header.doc_type (Decoded2DDoc.header d)
    /\ (exists parts, to_dec X (f !! py "43") = Ok (Some parts)
                      /\ AvisImposition.nombre_de_parts avis = Some parts
                      /\ coefficient parts <> 0)
    /\ AvisImposition.reference_avis avis = strip (default [] (f !! py "44"))
    /\ AvisImposition.reference_avis avis <> []
    /\ (exists year, to_int X (f !! py "45") = Ok (Some year)
                     /\ AvisImposition.annee_des_revenus avis = Some year
                     /\ year <> 0%Z)
    /\ AvisImposition.declarant_1 avis = strip (default [] (f !! py "46"))
    /\ AvisImposition.declarant_1 avis <> []
    /\ (exists day, to_date_ddmmyyyy X (f !! py "4A") = Ok (Some day)
                    /\ AvisImposition.date_mise_en_recouvrement avis = Some day)
    /\ ((exists s, f !! py "4Y" = Some s /\ s <> [])
        \/ ((exists s, f !! py "6U" = Some s /\ s <> [])
            /\ (exists s, f !! py "6W" = Some s /\ s <> [])
            /\ (exists s, f !! py "6X" = Some s /\ s <> [])
            /\ (exists s, f !! py "6Y" = Some s /\ s <> [])))
    /\ (forall k v,
          AvisImposition.extras avis !! k = Some v
          <-> f !! k = Some v /\ k ∉ known_28).
Proof.
  intros Hrun f. revert Hrun.
  unfold _handle_28, AvisImposition_from_decoded, fmap, res_fmap, mbind, res_bind.
  fold f.
  destruct (to_int X (f !! py "41")) as [rfr|]; [|discriminate].
  destruct (to_dec X (f !! py "43")) as [parts|]; [|discriminate].
  destruct (to_int X (f !! py "45")) as [year|]; [|discriminate].
  destruct (to_date_ddmmyyyy X (f !! py "4A")) as [day|]; [|discriminate].
  destruct (to_int X (f !! py "4V")) as [irn|]; [|discriminate].
  destruct (to_int X (f !! py "4W")) as [rap|]; [|discriminate].
  destruct (to_int X (f !! py "4X")) as [ras|]; [|discriminate].
  destruct (AvisImposition_validate _) as [[]|] eqn:Hval; [|discriminate].
  intros [= <-]. eexists. split; [reflexivity|].
  apply AvisImposition_validate_ok in Hval
    as ((p & Hp & Hp0) & Hra & (y & Hy & Hy0) & Hd1 & [day' Hday] & Haddr).
  apply is_ok_28_rule in Haddr.
  cbn [AvisImposition.nombre_de_parts AvisImposition.reference_avis
       AvisImposition.annee_des_revenus AvisImposition.declarant_1
       AvisImposition.date_mise_en_recouvrement AvisImposition.adresse
       AvisImposition.doc_type AvisImposition.extras
       AdresseImposition.full AdresseImposition.voie
       AdresseImposition.code_postal AdresseImposition.commune
       AdresseImposition.pays] in *.
  subst parts year day.
  split_and!; try reflexivity; try assumption.
  - exists p. auto.
  - exists y. auto.
  - exists day'. auto.
  - intros k v. apply map_lookup_filter_Some.
Qed.

(** X15. A view returned by the handler of type 28 is a notice with a
    number of parts and a year of income that converted to values other
    than zero, a reference (44) and a first declarant (46) not empty once
    stripped, a collection date that converted to a date, and an address
    given either by a field 4Y that is not empty or by the fields 6U, 6W,
    6X and 6Y all not empty; its extras are exactly the fields with an
    identifier the notice does not know. *)
Theorem handle_28_accepted_notice (X : imports) (d : Decoded2DDoc.t)
    (view : TypedView) :
  _handle_28 X d = Ok view ->
  let f := Decoded2DDoc.fields d in
  exists avis,
    view = TV_AvisImposition avis
    /\ AvisImposition.doc_type avis = Header.doc_type (Decoded2DDoc.header d)
    /\ (exists parts, to_dec X (f !! py "43") = Ok (Some parts)
                      /\ AvisImposition.nombre_de_parts avis = Some parts
                      /\ coefficient parts <> 0)
    /\ AvisImposition.reference_avis avis = strip (default [] (f !! py "44"))
    /\ AvisImposition.reference_avis avis <> []
    /\ (exists year, to_int X (f !! py "45") = Ok (Some year)
                     /\ AvisImposition.annee_des_revenus avis = Some year
                     /\ year <> 0%Z)
    /\ AvisImposition.declarant_1 avis = strip (default [] (f !! py "46"))
    /\ AvisImposition.declarant_1 avis <> []
    /\ (exists day, to_date_ddmmyyyy X (f !! py "4A") = Ok (Some day)
                    /\ AvisImposition.date_mise_en_recouvrement avis = Some day)
    /\ ((exists s, f !! py "4Y" = Some s /\ s <> [])
        \/ ((exists s, f !! py "6U" = Some s /\ s <> [])
            /\ (exists s, f !! py "6W" = Some s /\ s <> [])
            /\ (exists s, f !! py "6X" = Some s /\ s <> [])
            /\ (exists s, f !! py "6Y" = Some s /\ s <> [])))
    /\ (forall k v,
          AvisImposition.extras avis !! k = Some v
          <-> f !! k = Some v /\ k ∉ known_28).
Proof. apply _handle_28_ok_inv. Qed.


Lemma handle_28_accepted_notice_witness :
  exists view,
    _handle_28 digits_imports avis_doc = Ok view
    /\ exists avis, view = TV_AvisImposition avis
                    /\ AvisImposition.annee_des_revenus avis = Some 2023%Z.
Proof.
  assert (Hrun : exists view, _handle_28 digits_imports avis_doc = Ok view)
    by (eexists; vm_compute; reflexivity).
  destruct Hrun as [view Hrun]. exists view. split; [exact Hrun|].
  destruct (handle_28_accepted_notice digits_imports avis_doc view Hrun)
    as (avis & Hview & _ & _ & _ & _ & (year & Hconv & Hyear & _) & _).
  exists avis. split; [exact Hview|].
  rewrite Hyear. vm_compute in Hconv. injection Hconv as <-. reflexivity.
Defined.

Lemma blank_not_filled (f : gmap str str) (k : string) :
  blank f k -> ~ exists s, f !! py k = Some s /\ s <> [].
Proof. intros [H|H] (s & Hs & Hne); congruence. Qed.

(** X16. The handler of type 28 rejects a document that has no full
    address (4Y missing or empty) and lacks one of 6U, 6W, 6X, 6Y. *)
Theorem handle_28_rejects_incomplete_address (X : imports)
    (d : Decoded2DDoc.t) :
  blank (Decoded2DDoc.fields d) "4Y" ->
  blank (Decoded2DDoc.fields d) "6U" \/ blank (Decoded2DDoc.fields d) "6W"
  \/ blank (Decoded2DDoc.fields d) "6X" \/ blank (Decoded2DDoc.fields d) "6Y" ->
  exists e, _handle_28 X d = Raise e.
Proof.
  intros H4Y Hpart.
  destruct (_handle_28 X d) as [view|e] eqn:Hrun; [|eauto].
  apply _handle_28_ok_inv in Hrun
    as (avis & _ & _ & _ & _ & _ & _ & _ & _ & _ & Haddr & _).
  exfalso. apply blank_not_filled in H4Y.
  destruct Haddr as [Hfull|(H6U & H6W & H6X & H6Y)]; [auto|].
  destruct Hpart as [H|[H|[H|H]]]; apply blank_not_filled in H; auto.
Qed.

Lemma handle_28_rejects_incomplete_address_witness :
  blank (Decoded2DDoc.fields avis_noaddress_doc) "4Y"
  /\ blank (Decoded2DDoc.fields avis_noaddress_doc) "6W"
  /\ exists e, _handle_28 digits_imports avis_noaddress_doc = Raise e.
Proof.
  assert (H4Y : blank (Decoded2DDoc.fields avis_noaddress_doc) "4Y")
    by (left; reflexivity).
  assert (H6W : blank (Decoded2DDoc.fields avis_noaddress_doc) "6W")
    by (left; reflexivity).
  split; [exact H4Y|]. split; [exact H6W|].
  apply (handle_28_rejects_incomplete_address digits_imports
           avis_noaddress_doc H4Y).
  right; left. exact H6W.
Defined.

(** X17. For the handler of type 28 a zero counts as missing: it rejects
    a document whose year of income converts to nothing or to 0, or whose
    number of parts converts to nothing or to a zero. *)
Theorem handle_28_rejects_zero (X : imports) (d : Decoded2DDoc.t) :
  to_int X (Decoded2DDoc.fields d !! py "45") = Ok None
  \/ to_int X (Decoded2DDoc.fields d !! py "45") = Ok (Some 0%Z)
  \/ to_dec X (Decoded2DDoc.fields d !! py "43") = Ok None
  \/ (exists parts, to_dec X (Decoded2DDoc.fields d !! py "43")
                    = Ok (Some parts)
                    /\ coefficient parts = 0) ->
  exists e, _handle_28 X d = Raise e.
Proof.
  intros Hzero.
  destruct (_handle_28 X d) as [view|e] eqn:Hrun; [|eauto].
  apply _handle_28_ok_inv in Hrun
    as (avis & _ & _ & (parts & Hparts & _ & Hp0) & _ & _
        & (year & Hyear & _ & Hy0) & _).
  exfalso.
  destruct Hzero as [H|[H|[H|(parts' & H & Hc)]]]; congruence.
Qed.

Lemma handle_28_rejects_zero_witness :
  to_int digits_imports (Decoded2DDoc.fields avis_year0_doc !! py "45")
  = Ok (Some 0%Z)
  /\ exists e, _handle_28 digits_imports avis_year0_doc = Raise e.
Proof.
  assert (H : to_int digits_imports
                (Decoded2DDoc.fields avis_year0_doc !! py "45")
              = Ok (Some 0%Z)) by (vm_compute; reflexivity).
  split; [exact H|].
  apply (handle_28_rejects_zero digits_imports avis_year0_doc).
  right; left. exact H.
Defined.

Lemma AvisImposition_validate_complete (self : AvisImposition.t)
    (parts : Decimal) (year : Z) (day : date) :
  AvisImposition.nombre_de_parts self = Some parts ->
  coefficient parts <> 0 ->
  AvisImposition.reference_avis self <> [] ->
  AvisImposition.annee_des_revenus self = Some year ->
  year <> 0%Z ->
  AvisImposition.declarant_1 self <> [] ->
  AvisImposition.date_mise_en_recouvrement self = Some day ->
  AdresseImposition.is_ok_28 (AvisImposition.adresse self) = true ->
  AvisImposition_validate self = Ok tt.
Proof.
  intros Hp Hp0 Hra Hy Hy0 Hd1 Hday Haddr.
  unfold AvisImposition_validate.
  rewrite Hp, Hy, Hday, Haddr. cbn [truthy_opt]. unfold Decimal_truthy.
  apply N.eqb_neq in Hp0. apply Z.eqb_neq in Hy0. rewrite Hp0, Hy0.
  destruct (AvisImposition.reference_avis self); [congruence|].
  destruct (AvisImposition.declarant_1 self); [congruence|].
  reflexivity.
Qed.

(** X18. The handler of type 28 returns a notice as soon as the seven
    conversions succeed, with parts and a year other than zero and a
    collection date, the fields 44 and 46 are not empty once stripped and
    the address rule holds; the type code of the header is not checked,
    the notice takes it as it is. *)
Theorem handle_28_accepts_complete_notice (X : imports) (d : Decoded2DDoc.t)
    (rfr irn rap ras : option Z) (parts : Decimal) (year : Z) (day : date) :
  let f := Decoded2DDoc.fields d in
  to_int X (f !! py "41") = Ok rfr ->
  to_dec X (f !! py "43") = Ok (Some parts) ->
  coefficient parts <> 0 ->
  to_int X (f !! py "45") = Ok (Some year) ->
  year <> 0%Z ->
  to_date_ddmmyyyy X (f !! py "4A") = Ok (Some day) ->
  to_int X (f !! py "4V") = Ok irn ->
  to_int X (f !! py "4W") = Ok rap ->
  to_int X (f !! py "4X") = Ok ras ->
  strip (default [] (f !! py "44")) <> [] ->
  strip (default [] (f !! py "46")) <> [] ->
  (exists s, f !! py "4Y" = Some s /\ s <> [])
  \/ ((exists s, f !! py "6U" = Some s /\ s <> [])
      /\ (exists s, f !! py "6W" = Some s /\ s <> [])
      /\ (exists s, f !! py "6X" = Some s /\ s <> [])
      /\ (exists s, f !! py "6Y" = Some s /\ s <> [])) ->
  exists avis,
    _handle_28 X d = Ok (TV_AvisImposition avis)
    /\ AvisImposition.doc_type avis = Header.doc_type (Decoded2DDoc.header d)
    /\ AvisImposition.nombre_de_parts avis = Some parts
    /\ AvisImposition.annee_des_revenus avis = Some year
    /\ AvisImposition.date_mise_en_recouvrement avis = Some day
    /\ AvisImposition.revenu_fiscal_de_reference avis = rfr
    /\ AvisImposition.impot_revenu_net avis = irn
    /\ AvisImposition.reste_a_payer avis = rap
    /\ AvisImposition.retenue_a_la_source avis = ras.
Proof.
  intros f H41 H43 Hp0 H45 Hy0 H4A H4V H4W H4X H44 H46 Haddr.
  unfold _handle_28, AvisImposition_from_decoded, fmap, res_fmap, mbind, res_bind.
  fold f. rewrite H41, H43, H45, H4A, H4V, H4W, H4X. cbv beta iota zeta.
  erewrite AvisImposition_validate_complete;
    [eexists; split; [reflexivity|]; repeat split
    |reflexivity|exact Hp0|exact H44|reflexivity|exact Hy0|exact H46
    |reflexivity|].
  apply is_ok_28_rule. exact Haddr.
Qed.

Lemma handle_28_accepts_complete_notice_witness :
  Header.doc_type (Decoded2DDoc.header avis_doc) = py "28"
  /\ to_int digits_imports (Decoded2DDoc.fields avis_doc !! py "45")
     = Ok (Some 2023%Z)
  /\ exists avis,
       _handle_28 digits_imports avis_doc = Ok (TV_AvisImposition avis)
       /\ AvisImposition.annee_des_revenus avis = Some 2023%Z.
Proof.
  split; [reflexivity|]. split; [vm_compute; reflexivity|].
  destruct (handle_28_accepts_complete_notice digits_imports avis_doc
              None None None None (mk_Decimal false 2 0) 2023%Z
              (mk_date 2024 7 31))
    as (avis & Hrun & _ & _ & Hyear & _);
    try (vm_compute; reflexivity); try (vm_compute; discriminate).
  - left. eexists. split; [vm_compute; reflexivity|discriminate].
  - exists avis. split; assumption.
Defined.

(** ** Handler loading in the repository *)

(** X19. In the repository, a handler loading that starts with the module
    of type 07 not yet imported fails with the registry half filled: the
    handler of type 07 is registered under its display name and its
    module is imported, nothing is registered under "28", and the loaded
    flag stays false. *)
Theorem failed_load_keeps_type_07 (X : imports)
    (parser : str -> res Decoded2DDoc.t) (resolver : KeyResolver)
    (check : bytes -> bytes -> PublicKey -> res bool) (w : world) :
  doc28_unloaded w ->
  (mod_name (doc07_module X) ∉ sys_modules w) ->
  exists w',
    _ensure_handlers_loaded (repo_env X parser resolver check) w
    = (Raise (TypeError
                (py "register() missing 1 required positional argument: 'name'")),
       w')
    /\ TypeRegistry.get (_registry w') (py "07")
       = Some (_handle_07 X, py "carte_identite")
    /\ TypeRegistry.get (_registry w') (py "28") = None
    /\ (mod_name (doc07_module X) ∈ sys_modules w')
    /\ (doc28_name ∉ sys_modules w')
    /\ _handlers_loaded w' = false.
Proof.
  intros (Hl & Hm & Hr) H07.
  assert (Hbase : exists w1,
            import_module base_module w = (Ok tt, w1)
            /\ _registry w1 = _registry w
            /\ _handlers_loaded w1 = false
            /\ (mod_name (doc07_module X) ∉ sys_modules w1)
            /\ (doc28_name ∉ sys_modules w1)).
  { destruct (decide (mod_name base_module ∈ sys_modules w)) as [Hin|Hin].
    - exists w. rewrite import_module_known by exact Hin. auto.
    - rewrite import_module_fresh by exact Hin.
      exists (add_sys_module (mod_name base_module) w).
      split; [reflexivity|]. split; [reflexivity|]. split; [exact Hl|].
      split; cbn [sys_modules add_sys_module];
        rewrite elem_of_app, list_elem_of_singleton;
        intros [H|H]; auto; discriminate H. }
  destruct Hbase as (w1 & Hbase & Hr1 & Hl1 & H07' & Hm1).
  exists (add_sys_module (mod_name (doc07_module X))
            (set_registry
               (TypeRegistry.register (_registry w1) (py "07") (_handle_07 X)
                                      (py "carte_identite")) w1)).
  split.
  - unfold _ensure_handlers_loaded, mbind, St_bind, get_state.
    rewrite Hl. cbn [iter_modules repo_env type_package for_each].
    unfold mbind, St_bind. rewrite Hbase.
    rewrite (import_module_fresh (doc07_module X) w1 H07').
    cbn [mod_body doc07_module].
    change (call_register [py "07"; py "carte_identite"])
      with (Ok (register (py "07") (py "carte_identite"))).
    unfold mbind, St_bind, lift, mret, St_ret. rewrite register_run.
    rewrite import_doc28_module; [reflexivity|].
    cbn [sys_modules add_sys_module set_registry].
    rewrite elem_of_app, list_elem_of_singleton.
    intros [H|H]; [auto|discriminate H].
  - cbn [_registry add_sys_module set_registry sys_modules _handlers_loaded].
    split_and!.
    + apply TypeRegistry_get_register. reflexivity.
    + rewrite TypeRegistry_get_register_ne by discriminate.
      rewrite Hr1. exact Hr.
    + rewrite elem_of_app, list_elem_of_singleton. auto.
    + rewrite elem_of_app, list_elem_of_singleton.
      intros [H|H]; [auto|discriminate H].
    + exact Hl1.
Qed.

Lemma failed_load_keeps_type_07_witness :
  doc28_unloaded initial_world
  /\ (mod_name (doc07_module sample_imports) ∉ sys_modules initial_world)
  /\ exists w',
       fst (_ensure_handlers_loaded
              (repo_env sample_imports sample_parse resolver_with_key
                        check_accepts) initial_world)
       = Raise (TypeError
                  (py "register() missing 1 required positional argument: 'name'"))
       /\ TypeRegistry.get (_registry w') (py "07")
          = Some (_handle_07 sample_imports, py "carte_identite").
Proof.
  assert (H07 : mod_name (doc07_module sample_imports)
                ∉ sys_modules initial_world).
  { cbn [sys_modules initial_world]. rewrite list_elem_of_singleton.
    discriminate. }
  split; [exact doc28_unloaded_initial|]. split; [exact H07|].
  destruct (failed_load_keeps_type_07 sample_imports sample_parse
              resolver_with_key check_accepts initial_world
              doc28_unloaded_initial H07) as (w' & Hrun & Hreg & _).
  exists w'. rewrite Hrun. split; [reflexivity|exact Hreg].
Defined.
